(** * ai-query-interface: a chat front end over a CSV question-answering backend

    The development embeds the TypeScript sources of the client

      - [src/services/api.ts]   the backend call [queryCSV],
      - [src/dataLoader.ts]     the CSV loader [loadData],
      - the chat screen         the send handler [handleSend],

    and, from the design document, the two parts of the query engine that the
    client only calls: the intent classifier and the top-customer resolver.

    Asynchronous functions are computations over an explicit environment
    (console, requests sent, timers set) that return, throw, or never settle.
    What the platform supplies (the HTTP client, [fetch], the CSV parser) is a
    parameter of the functions that use it. *)

From Stdlib Require Import Ascii Floats QArith.
From stdpp Require Import gmap strings list fin_maps pretty.

Local Open Scope string_scope.
Local Open Scope list_scope.

(** ** JavaScript values, errors and strings *)

Module Js.

(** Values as JSON decoding and the language produce them.  An object is a
    finite map from property names to values. *)
#[warning="-register-all"]
Inductive JsValue : Type :=
  | JUndefined
  | JNull
  | JBool (b : bool)
  | JNumber (x : float)
  | JString (s : string)
  | JArray (items : list JsValue)
  | JObject (props : gmap string JsValue).

(** A thrown value: the error's name and its message. *)
Record JsError : Type := mkError { err_name : string; err_message : string }.

Definition TypeError (msg : string) : JsError := mkError "TypeError" msg.

(** [typeof v === 'string'] *)
Definition is_string (v : JsValue) : bool :=
  match v with JString _ => true | _ => false end.

(** [ToBoolean] on the values that occur in conditions here. *)
Definition ToBoolean (v : JsValue) : bool :=
  match v with
  | JUndefined | JNull => false
  | JBool b => b
  | JNumber x => negb (PrimFloat.eqb x 0 || PrimFloat.is_nan x)
  | JString s => negb (String.eqb s "")
  | JArray _ | JObject _ => true
  end.

(** Strings are sequences of code units; [string] carries the code units
    below 256.  Among those, the white space and line terminators that
    [String.prototype.trim] strips are TAB, LF, VT, FF, CR, SP and NBSP. *)
Definition isWhiteSpace (c : ascii) : bool :=
  let n := N_of_ascii c in
  ((9 <=? n) && (n <=? 13) || (n =? 32) || (n =? 160))%N.

Fixpoint trimStart (s : string) : string :=
  match s with
  | String c rest => if isWhiteSpace c then trimStart rest else s
  | EmptyString => EmptyString
  end.

Definition trimEnd (s : string) : string :=
  String.rev (trimStart (String.rev s)).

Definition trim (s : string) : string := trimEnd (trimStart s).

(** [String.prototype.toLowerCase] on code units below 256: the letters
    A..Z and the accented capitals 192..222 (without the multiplication sign
    215) move up by 32. *)
Definition lowerChar (c : ascii) : ascii :=
  let n := N_of_ascii c in
  if ((65 <=? n) && (n <=? 90) || (192 <=? n) && (n <=? 222) && negb (n =? 215))%N
  then ascii_of_N (n + 32) else c.

Fixpoint toLowerCase (s : string) : string :=
  match s with
  | String c rest => String (lowerChar c) (toLowerCase rest)
  | EmptyString => EmptyString
  end.

(** How a call, or the promise an [await] waits for, ends. *)
Inductive Outcome (A : Type) : Type :=
  | Returns (a : A)
  | Throws (e : JsError)
  | Hangs.
Arguments Returns {A} a.
Arguments Throws {A} e.
Arguments Hangs {A}.

Definition settles {A} (o : Outcome A) : bool :=
  match o with Hangs => false | _ => true end.

(** Computations over a state [S]. *)
Definition Eff (S A : Type) : Type := S -> Outcome A * S.

Definition ret {S A} (a : A) : Eff S A := fun s => (Returns a, s).

Definition throw {S A} (e : JsError) : Eff S A := fun s => (Throws e, s).

Definition bind {S A B} (m : Eff S A) (k : A -> Eff S B) : Eff S B :=
  fun s =>
    match m s with
    | (Returns a, s') => k a s'
    | (Throws e, s') => (Throws e, s')
    | (Hangs, s') => (Hangs, s')
    end.

(** [try { body } catch (e) { handler }] *)
Definition try_catch {S A} (body : Eff S A) (handler : JsError -> Eff S A) : Eff S A :=
  fun s =>
    match body s with
    | (Throws e, s') => handler e s'
    | r => r
    end.

Definition modify {S} (f : S -> S) : Eff S unit := fun s => (Returns tt, f s).

Definition gets {S A} (f : S -> A) : Eff S A := fun s => (Returns (f s), s).

(** The result of an awaited promise whose outcome the caller already holds. *)
Definition await {S A} (o : Outcome A) : Eff S A := fun s => (o, s).

(** Calling an async function without awaiting it: its effects take place
    and the caller holds the promise, here the way the promise ends. *)
Definition start {S A} (m : Eff S A) : Eff S (Outcome A) :=
  fun s => let (o, s') := m s in (Returns o, s').

(** [for (const x of items) { acc = body x acc }] *)
Fixpoint for_of {S A B} (items : list A) (body : A -> B -> Eff S B) (acc : B) : Eff S B :=
  match items with
  | [] => fun s => (Returns acc, s)
  | x :: rest =>
      fun s =>
        match body x acc s with
        | (Returns acc', s') => for_of rest body acc' s'
        | r => r
        end
  end.

(** [Promise.race([p, q])] settles the way its first settled input does;
    [order] is the order in which the two settle when both do. *)
Inductive Racer : Type := FirstSettles | SecondSettles.

Definition Promise_race {A} (order : Racer) (p q : Outcome A) : Outcome A :=
  match p, q with
  | Hangs, _ => q
  | _, Hangs => p
  | _, _ => match order with FirstSettles => p | SecondSettles => q end
  end.

(** Property read [v.key] for a key that no prototype defines: reading from
    [undefined] or [null] throws, a missing property reads as [undefined]. *)
Definition getProp (v : JsValue) (key : string) : Outcome JsValue :=
  match v with
  | JUndefined =>
      Throws (TypeError ("Cannot read properties of undefined (reading '" +:+ key +:+ "')"))
  | JNull =>
      Throws (TypeError ("Cannot read properties of null (reading '" +:+ key +:+ "')"))
  | JObject props => Returns (default JUndefined (props !! key))
  | JBool _ | JNumber _ | JString _ | JArray _ => Returns JUndefined
  end.

(** What was written to the console. *)
Inductive LogEntry : Type :=
  | ConsoleError (label : string) (err : JsError)
  | ConsoleLog (label : string) (sample : list JsValue).

(** A request that left the program: the URL and the query parameters. *)
Record Request : Type := mkRequest { req_url : string; req_params : list (string * string) }.

(** The environment a computation acts on. *)
Record Env : Type := mkEnv {
  console : list LogEntry;
  requests : list Request;
  timers : list N
}.

Definition console_error (label : string) (err : JsError) : Eff Env unit :=
  modify (fun env => mkEnv (console env ++ [ConsoleError label err]) (requests env) (timers env)).

Definition console_log (label : string) (sample : list JsValue) : Eff Env unit :=
  modify (fun env => mkEnv (console env ++ [ConsoleLog label sample]) (requests env) (timers env)).

Definition send (r : Request) : Eff Env unit :=
  modify (fun env => mkEnv (console env) (requests env ++ [r]) (timers env)).

Definition setTimeout (delay : N) : Eff Env unit :=
  modify (fun env => mkEnv (console env) (requests env) (timers env ++ [delay])).

End Js.

Export Js.

Declare Scope eff_scope.
Delimit Scope eff_scope with eff.
Notation "'let*' x ':=' m 'in' k" := (bind m (fun x => k))
  (at level 10, x name, m at level 100, k at level 200) : eff_scope.
Notation "m ';;;' k" := (bind m (fun _ => k))
  (at level 100, k at level 200, right associativity) : eff_scope.
Local Open Scope eff_scope.

(** ** src/services/api.ts *)

Module Api.

Definition BASE_IP : string := "xxx.xxx.x.xx".
Definition PORT : N := 8000.
Definition ENDPOINT : string := "query".

Definition BASE_URL : string :=
  "http://" +:+ BASE_IP +:+ ":" +:+ pretty PORT +:+ "/" +:+ ENDPOINT.

Record AxiosResponse : Type := mkResponse { status : N; data : JsValue }.

Section WithBackend.

(** [axios.get(url, { params })]: fulfils with a response, rejects (no
    connection, a status outside 2xx, ...), or stays pending. *)
Variable axios_get : string -> list (string * string) -> Outcome AxiosResponse.

Definition axios_get_call (url : string) (params : list (string * string))
  : Eff Env AxiosResponse :=
  send (mkRequest url params) ;;; await (axios_get url params).

Definition queryCSV (question : string) : Eff Env JsValue :=
  try_catch
    (let* response := axios_get_call BASE_URL [("question", question)] in
     await (getProp (data response) "answer"))
    (fun error =>
       console_error "API error:" error ;;;
       ret (JString "Sorry, something went wrong while querying the data.")).

End WithBackend.

End Api.

(** ** src/dataLoader.ts *)

Module DataLoader.

(** The options and the result of [Papa.parse]. *)
Record ParseConfig : Type := mkConfig { header : bool; skipEmptyLines : bool }.
Record ParseResult : Type := mkParsed { data : list JsValue; errors : list JsError }.

(** What [fetch] fulfils with; [text] is how reading the body ends. *)
Record Response : Type := mkFetched { status : N; text : Outcome string }.

Definition files : list string := ["Customers"; "Detail"; "Inventory"; "Pricelist"].

Section WithPlatform.

Variable fetch : string -> Outcome Response.
Variable Papa_parse : string -> ParseConfig -> Outcome ParseResult.

Definition fetch_call (url : string) : Eff Env Response :=
  send (mkRequest url []) ;;; await (fetch url).

Definition parseCSV (csvText : string) : Outcome (list JsValue) :=
  match Papa_parse csvText (mkConfig true true) with
  | Returns parsed => Returns (data parsed)
  | Throws e => Throws e
  | Hangs => Hangs
  end.

(** The body of the loop, for one file name. *)
Definition loadFile (name : string) (data : gmap string (list JsValue))
  : Eff Env (gmap string (list JsValue)) :=
  try_catch
    (let* response := fetch_call ("/" +:+ name +:+ ".csv") in
     let* text := await (text response) in
     let* rows := await (parseCSV text) in
     ret (<[toLowerCase name := rows]> data))
    (fun err =>
       console_error ("Error loading " +:+ name +:+ ".csv:") err ;;;
       ret (<[toLowerCase name := []]> data)).

(** [data.key.slice(0, 3)] *)
Definition sample (data : gmap string (list JsValue)) (key : string)
  : Outcome (list JsValue) :=
  match data !! key with
  | Some rows => Returns (take 3 rows)
  | None => Throws (TypeError "Cannot read properties of undefined (reading 'slice')")
  end.

Definition loadData : Eff Env (gmap string (list JsValue)) :=
  let* data := for_of files loadFile ∅ in
  let* customers := await (sample data "customers") in
  console_log "Customers sample:" customers ;;;
  let* inventory := await (sample data "inventory") in
  console_log "Inventory sample:" inventory ;;;
  let* detail := await (sample data "detail") in
  console_log "Details sample:" detail ;;;
  let* pricelist := await (sample data "pricelist") in
  console_log "Pricelist sample:" pricelist ;;;
  ret data.

End WithPlatform.

End DataLoader.

(** ** The chat screen *)

Module ChatScreen.

Record Message : Type := mkMessage { sender : string; text : JsValue }.

(** The three state cells of the component. *)
Record State : Type := mkState {
  question : string;
  messages : list Message;
  isLoading : bool
}.

Definition setQuestion (q : string) : Eff (State * Env) unit :=
  modify (fun '(st, env) => (mkState q (messages st) (isLoading st), env)).

Definition setMessages (update : list Message -> list Message) : Eff (State * Env) unit :=
  modify (fun '(st, env) => (mkState (question st) (update (messages st)) (isLoading st), env)).

Definition setIsLoading (b : bool) : Eff (State * Env) unit :=
  modify (fun '(st, env) => (mkState (question st) (messages st) b, env)).

(** A computation on the environment, run from the component. *)
Definition onEnv {A} (m : Eff Env A) : Eff (State * Env) A :=
  fun '(st, env) => let (o, env') := m env in (o, (st, env')).

Section WithBackend.

Variable axios_get : string -> list (string * string) -> Outcome Api.AxiosResponse.

(** Which of the query and the timer settles first when both do. *)
Variable order : Racer.

(** The [try] block of [handleSend]. *)
Definition handleSend_try (question : string) (timeout : Outcome JsValue)
  : Eff (State * Env) unit :=
  let* query := start (onEnv (Api.queryCSV axios_get question)) in
  let* response := await (Promise_race order query timeout) in
  setMessages (fun prev => prev ++ [mkMessage "bot" response]).

(** Its [catch] block. *)
Definition handleSend_catch (error : JsError) : Eff (State * Env) unit :=
  setMessages (fun prev => prev ++ [mkMessage "bot" (JString "Sorry, something went wrong.")]).

Definition handleSend : Eff (State * Env) unit :=
  let* question := gets (fun s => question (fst s)) in
  if negb (ToBoolean (JString (trim question))) then ret tt
  else
    setMessages (fun prev => prev ++ [mkMessage "user" (JString question)]) ;;;
    setIsLoading true ;;;
    onEnv (setTimeout 7000) ;;;
    let timeout := Returns (JString "Sorry, that request timed out.") in
    try_catch (handleSend_try question timeout) handleSend_catch ;;;
    setIsLoading false ;;;
    setQuestion "".

End WithBackend.

End ChatScreen.

(** ** The query engine behind the backend call

    The backend that answers [queryCSV]'s request is not part of the client
    sources; the two parts used below follow the design document. *)

Module Engine.

(** *** Intent classifier *)

(** Modelled from the spec: the classifier's result type (the backend's
    classifier is missing); one of the three intents, or the original text. *)
Inductive Intent : Type :=
  | TopCustomer
  | TopItem
  | ItemsUnderPrice (threshold : float)
  | Unrecognized (originalText : string).

(** Modelled from the spec: what a row of the synonym table (missing with the
    backend) maps to; a price row also reads the number after its literal. *)
Inductive Target : Type := ToTopCustomer | ToTopItem | ToItemsUnderPrice.

(** Modelled from the spec: the fixed table of synonym patterns of the
    missing classifier, with the phrase fragments the spec lists. *)
Definition synonyms : list (string * Target) :=
  [ ("top customer", ToTopCustomer);
    ("best customer", ToTopCustomer);
    ("who spends the most", ToTopCustomer);
    ("top item", ToTopItem);
    ("best seller", ToTopItem);
    ("under $", ToItemsUnderPrice);
    ("below $", ToItemsUnderPrice);
    ("less than $", ToItemsUnderPrice) ].

(** Modelled from the spec: the text left after [literal] when [text]
    starts with it (helper of the missing classifier). *)
Fixpoint strip_prefix (literal text : string) : option string :=
  match literal, text with
  | EmptyString, _ => Some text
  | String a literal', String b text' =>
      if Ascii.eqb a b then strip_prefix literal' text' else None
  | String _ _, EmptyString => None
  end.

(** Modelled from the spec: the texts that follow the occurrences of a
    phrase fragment, leftmost first (helper of the missing classifier).
    Fragments are found anywhere in the text, so punctuation around them
    does not matter. *)
Fixpoint occurrences (literal text : string) : list string :=
  let here := option_list (strip_prefix literal text) in
  match text with
  | EmptyString => here
  | String _ rest => here ++ occurrences literal rest
  end.

(** Modelled from the spec: the value of a decimal digit (helper of the
    missing threshold grammar). *)
Definition digit (c : ascii) : option float :=
  match c with
  | "0"%char => Some 0%float | "1"%char => Some 1%float
  | "2"%char => Some 2%float | "3"%char => Some 3%float
  | "4"%char => Some 4%float | "5"%char => Some 5%float
  | "6"%char => Some 6%float | "7"%char => Some 7%float
  | "8"%char => Some 8%float | "9"%char => Some 9%float
  | _ => None
  end.

(** Modelled from the spec: the leading decimal digits of a text and what
    follows them (helper of the missing threshold grammar). *)
Fixpoint digits (s : string) : list float * string :=
  match s with
  | EmptyString => ([], EmptyString)
  | String c rest =>
      match digit c with
      | Some d => let (ds, tail) := digits rest in (d :: ds, tail)
      | None => ([], s)
      end
  end.

(** Modelled from the spec: the number N of "under $N", parsed as a
    floating-point value: digits, then optionally a point and more digits
    (the threshold grammar of the missing classifier). *)
Definition parse_number (s : string) : option float :=
  let whole (ds : list float) := fold_left (fun acc d => acc * 10 + d)%float ds 0%float in
  match digits s with
  | ([], _) => None
  | (int_part, String "."%char after) =>
      match digits after with
      | ([], _) => Some (whole int_part)
      | (frac, _) =>
          Some (whole int_part
                + whole frac / fold_left (fun acc _ => acc * 10)%float frac 1%float)%float
      end
  | (int_part, _) => Some (whole int_part)
  end.

(** Modelled from the spec: whether one row of the table matches the
    lower-cased text, and the intent it yields (missing classifier). *)
Definition match_row (lowered : string) (row : string * Target) : option Intent :=
  let '(literal, target) := row in
  match target with
  | ToTopCustomer =>
      match occurrences literal lowered with [] => None | _ => Some TopCustomer end
  | ToTopItem =>
      match occurrences literal lowered with [] => None | _ => Some TopItem end
  | ToItemsUnderPrice =>
      ItemsUnderPrice <$> head (omap parse_number (occurrences literal lowered))
  end.

(** Modelled from the spec: among the rows that match, the one with the
    longest literal wins, the earlier row on equal length (missing
    classifier). *)
Fixpoint longest_match (lowered : string) (rows : list (string * Target))
  : option (nat * Intent) :=
  match rows with
  | [] => None
  | row :: rest =>
      let later := longest_match lowered rest in
      match match_row lowered row with
      | None => later
      | Some intent =>
          let len := String.length (fst row) in
          match later with
          | Some (len', intent') =>
              if (len <? len')%nat then Some (len', intent') else Some (len, intent)
          | None => Some (len, intent)
          end
      end
  end.

(** Modelled from the spec: the intent classifier of the backend, which is
    missing from the sources.  Matching is case-insensitive; no match yields
    [Unrecognized] with the original text. *)
Definition classify (text : string) : Intent :=
  match longest_match (toLowerCase text) synonyms with
  | Some (_, intent) => intent
  | None => Unrecognized text
  end.

(** *** Data model and top-customer resolver *)

(** Modelled from the spec: a row of the customer table (the backend's data
    model is missing): identifier and display name. *)
Record Customer : Type := mkCustomer { customer_id : string; customer_name : string }.

(** Modelled from the spec: an order detail row of the missing data model.
    A numeric field that is malformed or missing is [None]. *)
Record OrderLine : Type := mkOrderLine {
  line_customer : string;
  line_item : string;
  quantity : option Q;
  unit_price : option Q;
  date : option string
}.

(** Modelled from the spec: an inventory row of the missing data model. *)
Record InventoryItem : Type := mkItem {
  item_id : string;
  item_name : string;
  stock : option Q
}.

(** Modelled from the spec: a price-list row of the missing data model. *)
Record PriceListEntry : Type := mkPrice { price_item : string; price : option Q }.

(** Modelled from the spec: the immutable snapshot of the four tables that
    one query reads (missing data model). *)
Record Snapshot : Type := mkSnapshot {
  customers : list Customer;
  detail : list OrderLine;
  inventory : list InventoryItem;
  pricelist : list PriceListEntry
}.

(** Modelled from the spec: the errors of the missing engine. *)
Inductive EngineError : Type :=
  | NoDataError
  | MalformedRowError
  | InternalComputationError.

(** Modelled from the spec: quantity times unit price of an order line of
    the missing data-access layer; none when a numeric field is malformed. *)
Definition line_amount (l : OrderLine) : option Q :=
  match quantity l, unit_price l with
  | Some q, Some p => Some (q * p)%Q
  | _, _ => None
  end.

(** Modelled from the spec: whether an order line's customer identifier
    refers to a row of the customer table (join of the missing data-access
    layer). *)
Definition known_customer (snap : Snapshot) (id : string) : bool :=
  existsb (fun c => String.eqb (customer_id c) id) (customers snap).

(** Modelled from the spec: one step of the sum of [customerSpend] (missing
    data-access layer): a line with a malformed number or a dangling customer
    is skipped. *)
Definition add_line (snap : Snapshot) (spend : gmap string Q) (l : OrderLine)
  : gmap string Q :=
  match line_amount l with
  | Some amount =>
      if known_customer snap (line_customer l)
      then <[line_customer l := (default 0 (spend !! line_customer l) + amount)%Q]> spend
      else spend
  | None => spend
  end.

(** Modelled from the spec: [customerSpend()] of the missing data-access
    layer, the mapping from customer identifier to total spend, summed over
    all order lines of quantity times unit price. *)
Definition customerSpend (snap : Snapshot) : gmap string Q :=
  fold_left (add_line snap) (detail snap) ∅.

(** Modelled from the spec: the order in which the missing resolver prefers
    entries: a larger total first, and on equal totals the
    lexicographically smaller identifier. *)
Definition better (a b : string * Q) : bool :=
  match (snd a ?= snd b)%Q with
  | Gt => true
  | Lt => false
  | Eq => String.leb (fst a) (fst b)
  end.

(** Modelled from the spec: the selection of the entry with the maximum
    total, ties broken by the smallest identifier (missing resolver). *)
Fixpoint select_top (entries : list (string * Q)) : option (string * Q) :=
  match entries with
  | [] => None
  | e :: rest =>
      match select_top rest with
      | Some b => if better e b then Some e else Some b
      | None => Some e
      end
  end.

(** Modelled from the spec: what the missing top-customer resolver returns. *)
Record TopCustomerResult : Type := mkTop {
  top_id : string;
  top_name : string;
  top_total : Q
}.

(** Modelled from the spec: the display name of a customer (join of the
    missing data-access layer); the identifier itself when no row has it. *)
Definition display_name (snap : Snapshot) (id : string) : string :=
  match find (fun c => String.eqb (customer_id c) id) (customers snap) with
  | Some c => customer_name c
  | None => id
  end.

(** Modelled from the spec: [TopCustomerResolver], missing with the backend.
    It fails with [NoDataError] if the customer table is empty or no total
    exists. *)
Definition TopCustomerResolver (snap : Snapshot) : EngineError + TopCustomerResult :=
  match customers snap with
  | [] => inl NoDataError
  | _ :: _ =>
      match select_top (map_to_list (customerSpend snap)) with
      | Some (id, total) => inr (mkTop id (display_name snap id) total)
      | None => inl NoDataError
      end
  end.

(** Modelled from the spec: repeated invocations of the missing resolver on
    one snapshot. *)
Definition invocations (n : nat) (snap : Snapshot) : list (EngineError + TopCustomerResult) :=
  (fun _ => TopCustomerResolver snap) <$> seq 0 n.

End Engine.

(** ** Environments and platforms used in statements and examples *)

(** The environment after the request of [queryCSV] has been sent. *)
Definition requested (question : string) (env : Env) : Env :=
  mkEnv (console env)
        (requests env ++ [mkRequest Api.BASE_URL [("question", question)]])
        (timers env).

(** A backend that answers every question with the same payload. *)
Definition constant_backend (payload : JsValue)
  : string -> list (string * string) -> Outcome Api.AxiosResponse :=
  fun _ _ => Returns (Api.mkResponse 200 payload).

Definition empty_env : Env := mkEnv [] [] [].

(** A backend whose call never settles. *)
Definition silent_backend : string -> list (string * string) -> Outcome Api.AxiosResponse :=
  fun _ _ => Hangs.

Section LoaderStatements.

Variable fetch : string -> Outcome DataLoader.Response.
Variable Papa_parse : string -> DataLoader.ParseConfig -> Outcome DataLoader.ParseResult.

(** How the [try] block of [loadData]'s loop ends for one file: with the
    rows parsed, or with the error raised by the fetch, by reading the body
    or by the parser. *)
Definition readFile (name : string) : Outcome (list JsValue) :=
  match fetch ("/" +:+ name +:+ ".csv") with
  | Returns response =>
      match DataLoader.text response with
      | Returns body => DataLoader.parseCSV Papa_parse body
      | Throws e => Throws e
      | Hangs => Hangs
      end
  | Throws e => Throws e
  | Hangs => Hangs
  end.

(** No fetch, body or parse stays pending. *)
Definition all_settle : bool := forallb (fun name => settles (readFile name)) DataLoader.files.

Definition rows_of (name : string) : list JsValue :=
  match readFile name with Returns rows => rows | _ => [] end.

Definition notes_of (name : string) : list LogEntry :=
  match readFile name with
  | Throws e => [ConsoleError ("Error loading " +:+ name +:+ ".csv:") e]
  | _ => []
  end.

Definition request_of (name : string) : Request := mkRequest ("/" +:+ name +:+ ".csv") [].

(** The record [loadData] returns, key by key. *)
Definition loaded : gmap string (list JsValue) :=
  <["pricelist" := rows_of "Pricelist"]>
    (<["inventory" := rows_of "Inventory"]>
       (<["detail" := rows_of "Detail"]>
          (<["customers" := rows_of "Customers"]> ∅))).

(** The four sample lines written after the loop. *)
Definition samples : list LogEntry :=
  [ ConsoleLog "Customers sample:" (take 3 (rows_of "Customers"));
    ConsoleLog "Inventory sample:" (take 3 (rows_of "Inventory"));
    ConsoleLog "Details sample:" (take 3 (rows_of "Detail"));
    ConsoleLog "Pricelist sample:" (take 3 (rows_of "Pricelist")) ].

End LoaderStatements.

(** A file server for the examples: [Customers.csv] and [Pricelist.csv] are
    served, the fetch of [Detail.csv] is rejected, and the body of
    [Inventory.csv] cannot be read. *)
Definition example_fetch (url : string) : Outcome DataLoader.Response :=
  if String.eqb url "/Customers.csv" then
    Returns (DataLoader.mkFetched 200 (Returns "id,name"))
  else if String.eqb url "/Detail.csv" then
    Throws (TypeError "Failed to fetch")
  else if String.eqb url "/Inventory.csv" then
    Returns (DataLoader.mkFetched 200 (Throws (TypeError "body stream already read")))
  else
    Returns (DataLoader.mkFetched 200 (Returns "item,price")).

(** A file server on which all four files are served. *)
Definition serving_fetch (url : string) : Outcome DataLoader.Response :=
  Returns (DataLoader.mkFetched 200 (Returns url)).

(** A parser for the examples: one record that holds the text it was given. *)
Definition example_parse (csvText : string) (config : DataLoader.ParseConfig)
  : Outcome DataLoader.ParseResult :=
  Returns (DataLoader.mkParsed [JObject {["raw" := JString csvText]}] []).

(** [beats a b]: the resolver prefers entry [a] to entry [b]. *)
Definition beats (a b : string * Q) : Prop :=
  (snd b < snd a)%Q \/ ((snd a == snd b)%Q /\ String.le (fst a) (fst b)).

(** A snapshot in which the customers c2 and c1 both spent 10 and c3 spent 4;
    one order line names an unknown customer and one has no quantity. *)
Definition tied_snapshot : Engine.Snapshot :=
  Engine.mkSnapshot
    [ Engine.mkCustomer "c2" "Bob"; Engine.mkCustomer "c1" "Alice";
      Engine.mkCustomer "c3" "Carol" ]
    [ Engine.mkOrderLine "c2" "i1" (Some 2%Q) (Some 5%Q) None;
      Engine.mkOrderLine "c1" "i2" (Some 1%Q) (Some 6%Q) None;
      Engine.mkOrderLine "c3" "i1" (Some 1%Q) (Some 4%Q) None;
      Engine.mkOrderLine "c9" "i1" (Some 7%Q) (Some 5%Q) None;
      Engine.mkOrderLine "c1" "i1" None (Some 5%Q) None;
      Engine.mkOrderLine "c1" "i3" (Some 2%Q) (Some 2%Q) (Some "2024-01-31") ]
    [] [].

(** A backend whose call is rejected with the error [e]. *)
Definition failing_backend (e : JsError)
  : string -> list (string * string) -> Outcome Api.AxiosResponse :=
  fun _ _ => Throws e.

(** A file server on which [Customers.csv] cannot be fetched and the fetch of
    [Detail.csv] never settles. *)
Definition stalled_fetch (url : string) : Outcome DataLoader.Response :=
  if String.eqb url "/Customers.csv" then Throws (TypeError "Failed to fetch")
  else if String.eqb url "/Detail.csv" then Hangs
  else Returns (DataLoader.mkFetched 200 (Returns url)).

(** The file server [fetch] with every status code replaced by [f] of it. *)
Definition with_status (f : N -> N) (fetch : string -> Outcome DataLoader.Response)
  : string -> Outcome DataLoader.Response :=
  fun url =>
    match fetch url with
    | Returns response =>
        Returns (DataLoader.mkFetched (f (DataLoader.status response))
                                      (DataLoader.text response))
    | Throws e => Throws e
    | Hangs => Hangs
    end.

(** The parser [Papa_parse] with every list of reported errors replaced by
    [g] of it. *)
Definition with_errors (g : list JsError -> list JsError)
    (Papa_parse : string -> DataLoader.ParseConfig -> Outcome DataLoader.ParseResult)
  : string -> DataLoader.ParseConfig -> Outcome DataLoader.ParseResult :=
  fun csvText config =>
    match Papa_parse csvText config with
    | Returns parsed =>
        Returns (DataLoader.mkParsed (DataLoader.data parsed) (g (DataLoader.errors parsed)))
    | Throws e => Throws e
    | Hangs => Hangs
    end.

(** A parser that agrees with [Papa_parse] where [loadData] calls it, with
    [header] and [skipEmptyLines] both set, and throws everywhere else. *)
Definition only_loader_config
    (Papa_parse : string -> DataLoader.ParseConfig -> Outcome DataLoader.ParseResult)
  : string -> DataLoader.ParseConfig -> Outcome DataLoader.ParseResult :=
  fun csvText config =>
    if DataLoader.header config && DataLoader.skipEmptyLines config
    then Papa_parse csvText config
    else Throws (mkError "Error" "unexpected options").

(** ** The chat screen's view *)

Module ChatView.

(** The entries of the [styles] table, by name. *)
Inductive Style : Type := container | chat | input | user | bot | thinking.

(** The functions the view passes as event handlers. *)
Inductive Handler : Type := call_setQuestion | call_handleSend.

(** The child of a [Text]: an expression's value, or literal text given by its
    code units. *)
Inductive TextContent : Type :=
  | Expr (v : JsValue)
  | Literal (units : list N).

(** The elements the component renders. *)
#[warning="-register-all"]
Inductive Element : Type :=
  | View (style : Style) (children : list Element)
  | ScrollView (style : Style) (children : list Element)
  | Text (key : option nat) (style : Style) (content : TextContent)
  | TextInput (style : Style) (placeholder value : string)
              (onChangeText : Handler) (editable : bool)
  | Button (title : string) (onPress : Handler) (disabled : bool).

(** The code units of the indicator's text, "Thinking" and U+2026. *)
Definition thinking_text : list N := [84; 104; 105; 110; 107; 105; 110; 103; 8230]%N.

(** Whether React accepts a value as a child: strings and numbers are shown;
    [undefined], [null] and booleans show nothing; an array is accepted when
    its items are; a plain object is not a valid child. *)
Fixpoint valid_child (v : JsValue) : bool :=
  match v with
  | JObject _ => false
  | JArray items => forallb valid_child items
  | JUndefined | JNull | JBool _ | JNumber _ | JString _ => true
  end.

(** What React throws on a plain object among the children. *)
Definition invalid_child : JsError :=
  mkError "Error" "Objects are not valid as a React child".

(** [messages.map((msg, index) => <Text key={index} ...>{msg.text}</Text>)],
    one message: the bubble, or the error when [msg.text] is not a valid
    child. *)
Definition bubble (index : nat) (msg : ChatScreen.Message) : Outcome Element :=
  if valid_child (ChatScreen.text msg)
  then Returns (Text (Some index)
                     (if String.eqb (ChatScreen.sender msg) "user" then user else bot)
                     (Expr (ChatScreen.text msg)))
  else Throws invalid_child.

(** The bubbles of the messages from position [index] on. *)
Fixpoint bubbles (index : nat) (msgs : list ChatScreen.Message) : Outcome (list Element) :=
  match msgs with
  | [] => Returns []
  | msg :: rest =>
      match bubble index msg with
      | Returns shown =>
          match bubbles (S index) rest with
          | Returns others => Returns (shown :: others)
          | Throws e => Throws e
          | Hangs => Hangs
          end
      | Throws e => Throws e
      | Hangs => Hangs
      end
  end.

(** What the component renders; a child that is [false] renders nothing, and
    an error thrown for a bubble takes the whole view with it. *)
Definition render (st : ChatScreen.State) : Outcome Element :=
  match bubbles 0 (ChatScreen.messages st) with
  | Returns shown =>
      Returns
        (View container
           [ ScrollView chat
               (shown
                ++ (if ChatScreen.isLoading st
                    then [Text None thinking (Literal thinking_text)]
                    else []));
             TextInput input "Ask about your orders..." (ChatScreen.question st)
                       call_setQuestion (negb (ChatScreen.isLoading st));
             Button "Send" call_handleSend (ChatScreen.isLoading st) ])
  | Throws e => Throws e
  | Hangs => Hangs
  end.

End ChatView.

(** ** The send handler around its [await], and sessions *)

Section SendPhases.

Variable axios_get : string -> list (string * string) -> Outcome Api.AxiosResponse.
Variable order : Racer.

(** [handleSend] up to its [await]: the guard, the user's message, the
    loading flag, the timer and the call of [queryCSV].  It yields the raced
    promise the handler waits for, or nothing when the guard returned. *)
Definition handleSend_begin : Eff (ChatScreen.State * Env) (option (Outcome JsValue)) :=
  let* question := gets (fun s => ChatScreen.question (fst s)) in
  if negb (ToBoolean (JString (trim question))) then ret None
  else
    ChatScreen.setMessages
      (fun prev => prev ++ [ChatScreen.mkMessage "user" (JString question)]) ;;;
    ChatScreen.setIsLoading true ;;;
    ChatScreen.onEnv (setTimeout 7000) ;;;
    let timeout := Returns (JString "Sorry, that request timed out.") in
    let* query := start (ChatScreen.onEnv (Api.queryCSV axios_get question)) in
    ret (Some (Promise_race order query timeout)).

(** [handleSend] from its [await] on. *)
Definition handleSend_resume (raced : option (Outcome JsValue))
  : Eff (ChatScreen.State * Env) unit :=
  match raced with
  | None => ret tt
  | Some raced =>
      try_catch
        (let* response := await raced in
         ChatScreen.setMessages (fun prev => prev ++ [ChatScreen.mkMessage "bot" response]))
        ChatScreen.handleSend_catch ;;;
      ChatScreen.setIsLoading false ;;;
      ChatScreen.setQuestion ""
  end.

End SendPhases.

(** What the user does between renders: type into the input, or press Send.
    A press carries how the backend call of that send ends and which of the
    query and the timer settles first. *)
Inductive Event : Type :=
  | TypeText (text : string)
  | PressSend (reply : Outcome Api.AxiosResponse) (order : Racer).

(** The handler the view attaches to the event. *)
Definition handle (ev : Event) : Eff (ChatScreen.State * Env) unit :=
  match ev with
  | TypeText text => ChatScreen.setQuestion text
  | PressSend reply order => ChatScreen.handleSend (fun _ _ => reply) order
  end.

(** A session: the events handled one after the other. *)
Definition session (events : list Event) : Eff (ChatScreen.State * Env) unit :=
  for_of events (fun ev _ => handle ev) tt.

(** The component's state at its first render. *)
Definition initialState : ChatScreen.State := ChatScreen.mkState "" [] false.

(** The two messages of one exchange. *)
Definition exchange (turn : string * JsValue) : list ChatScreen.Message :=
  [ChatScreen.mkMessage "user" (JString (fst turn)); ChatScreen.mkMessage "bot" (snd turn)].

(** The request [queryCSV] sends for a question. *)
Definition query_request (question : string) : Request :=
  mkRequest Api.BASE_URL [("question", question)].

(** A parser for the examples that throws on the text "item,price" and
    otherwise yields one record holding the text it was given. *)
Definition throwing_parse (csvText : string) (config : DataLoader.ParseConfig)
  : Outcome DataLoader.ParseResult :=
  if String.eqb csvText "item,price" then Throws (mkError "Error" "Unable to parse")
  else Returns (DataLoader.mkParsed [JObject {["raw" := JString csvText]}] []).


(** * Properties *)

(** ** Strings *)

Lemma trimStart_blank (s : string) :
  Forall (fun c => isWhiteSpace c = true) (String.list_ascii_of_string s) ->
  trimStart s = "".
Proof.
  induction s as [|c s IH]; simpl; intros H; [reflexivity|].
  inversion H as [|? ? Hc Hs]; subst. rewrite Hc. auto.
Qed.

Lemma trim_blank (s : string) :
  Forall (fun c => isWhiteSpace c = true) (String.list_ascii_of_string s) ->
  trim s = "".
Proof.
  intros H. unfold trim. rewrite (trimStart_blank s H). reflexivity.
Qed.

Lemma list_ascii_rev_app (s1 s2 : string) :
  String.list_ascii_of_string (String.rev_app s1 s2) =
  rev (String.list_ascii_of_string s1) ++ String.list_ascii_of_string s2.
Proof.
  revert s2. induction s1 as [|c s1 IH]; intros s2; simpl; [reflexivity|].
  rewrite IH. simpl. rewrite <- app_assoc. reflexivity.
Qed.

Lemma trimStart_empty (s : string) :
  trimStart s = "" ->
  Forall (fun c => isWhiteSpace c = true) (String.list_ascii_of_string s).
Proof.
  induction s as [|c s IH]; simpl; [constructor|].
  destruct (isWhiteSpace c) eqn:Hc; [|discriminate].
  intros H. constructor; auto.
Qed.

(** What [trimStart] leaves starts with a character that is not white space. *)
Lemma trimStart_head (s : string) (c : ascii) (rest : string) :
  trimStart s = String c rest -> isWhiteSpace c = false.
Proof.
  induction s as [|c' s IH]; simpl; [discriminate|].
  destruct (isWhiteSpace c') eqn:Hc'; [exact IH|].
  intros [= <- _]. exact Hc'.
Qed.

(** [trim] yields the empty string exactly on the blank strings. *)
Lemma trim_empty_iff_blank (s : string) :
  trim s = "" <->
  Forall (fun c => isWhiteSpace c = true) (String.list_ascii_of_string s).
Proof.
  split; [|apply trim_blank].
  intros H. apply trimStart_empty.
  destruct (trimStart s) as [|c rest] eqn:Hstart; [reflexivity|exfalso].
  pose proof (trimStart_head _ _ _ Hstart) as Hc.
  unfold trim, trimEnd in H. rewrite Hstart in H.
  assert (trimStart (String.rev (String c rest)) = "") as Hend.
  { destruct (trimStart (String.rev (String c rest))) as [|c' rest'] eqn:E;
      [reflexivity|].
    apply (f_equal String.list_ascii_of_string) in H.
    unfold String.rev in H. rewrite list_ascii_rev_app in H. simpl in H.
    rewrite app_nil_r in H. apply (f_equal (@length ascii)) in H.
    rewrite length_app in H. simpl in H. lia. }
  apply trimStart_empty in Hend.
  unfold String.rev in Hend. rewrite list_ascii_rev_app, app_nil_r in Hend.
  apply Forall_rev in Hend. rewrite rev_involutive in Hend. simpl in Hend.
  inversion Hend as [|? ? Hc' _]; subst. congruence.
Qed.

(** ** The backend call *)

Section ApiProperties.

Variable axios_get : string -> list (string * string) -> Outcome Api.AxiosResponse.

(** [queryCSV] unfolded by the way the backend call ends. *)
Lemma queryCSV_cases (question : string) (env : Env) :
  Api.queryCSV axios_get question env =
    match axios_get Api.BASE_URL [("question", question)] with
    | Returns response =>
        match getProp (Api.data response) "answer" with
        | Returns v => (Returns v, requested question env)
        | Throws e =>
            (Returns (JString "Sorry, something went wrong while querying the data."),
             mkEnv (console env ++ [ConsoleError "API error:" e])
                   (requests (requested question env)) (timers env))
        | Hangs => (Hangs, requested question env)
        end
    | Throws e =>
        (Returns (JString "Sorry, something went wrong while querying the data."),
         mkEnv (console env ++ [ConsoleError "API error:" e])
               (requests (requested question env)) (timers env))
    | Hangs => (Hangs, requested question env)
    end.
Proof.
  unfold Api.queryCSV, try_catch, Api.axios_get_call, bind, send, modify, await,
    console_error, ret, requested.
  destruct (axios_get _ _) as [response|e|]; reflexivity.
Qed.

Lemma getProp_settles (v : JsValue) (key : string) : getProp v key <> Hangs.
Proof. destruct v; discriminate. Qed.

(** The promise of [queryCSV] never rejects. *)
Lemma queryCSV_never_throws (question : string) (env : Env) (e : JsError) :
  fst (Api.queryCSV axios_get question env) <> Throws e.
Proof.
  rewrite queryCSV_cases.
  destruct (axios_get _ _) as [response|e'|]; simpl; try discriminate.
  destruct (getProp _ _); discriminate.
Qed.

(** It settles exactly when the backend call does. *)
Lemma queryCSV_settles (question : string) (env : Env) :
  settles (fst (Api.queryCSV axios_get question env)) =
  settles (axios_get Api.BASE_URL [("question", question)]).
Proof.
  rewrite queryCSV_cases.
  destruct (axios_get _ _) as [response|e'|]; simpl; try reflexivity.
  destruct (getProp _ _) as [v|e|] eqn:E; try reflexivity.
  exfalso. exact (getProp_settles _ _ E).
Qed.

(** Every rejection of the backend call becomes the fallback sentence, with
    the error written to the console. *)
Lemma queryCSV_rejected (question : string) (env : Env) (e : JsError) :
  axios_get Api.BASE_URL [("question", question)] = Throws e ->
  Api.queryCSV axios_get question env =
    (Returns (JString "Sorry, something went wrong while querying the data."),
     mkEnv (console env ++ [ConsoleError "API error:" e])
           (requests env ++ [mkRequest Api.BASE_URL [("question", question)]])
           (timers env)).
Proof. intros H. rewrite queryCSV_cases, H. reflexivity. Qed.

(** [queryCSV] sets no timer and sends exactly its one request. *)
Lemma queryCSV_env (question : string) (env : Env) :
  timers (snd (Api.queryCSV axios_get question env)) = timers env /\
  requests (snd (Api.queryCSV axios_get question env)) =
    requests env ++ [mkRequest Api.BASE_URL [("question", question)]].
Proof.
  rewrite queryCSV_cases.
  destruct (axios_get _ _) as [response|e'|]; simpl; auto.
  destruct (getProp _ _); simpl; auto.
Qed.

(** C2: when the backend call succeeds with a payload object whose [answer]
    field holds the text [answer], [queryCSV] returns exactly that text; it
    writes nothing to the console and has sent the one GET request carrying
    the question. *)
Theorem queryCSV_returns_answer
    (question : string) (env : Env) (response : Api.AxiosResponse)
    (payload : gmap string JsValue) (answer : string) :
  axios_get Api.BASE_URL [("question", question)] = Returns response ->
  Api.data response = JObject payload ->
  payload !! "answer" = Some (JString answer) ->
  Api.queryCSV axios_get question env =
    (Returns (JString answer),
     mkEnv (console env)
           (requests env ++ [mkRequest Api.BASE_URL [("question", question)]])
           (timers env)).
Proof.
  intros Hget Hdata Hanswer.
  rewrite queryCSV_cases, Hget, Hdata. simpl. rewrite Hanswer. reflexivity.
Qed.

End ApiProperties.

Lemma queryCSV_returns_answer_witness :
  Api.queryCSV (constant_backend (JObject {["answer" := JString "Alice is the top customer"]}))
               "top customer" empty_env =
    (Returns (JString "Alice is the top customer"),
     mkEnv [] [mkRequest "http://xxx.xxx.x.xx:8000/query" [("question", "top customer")]] []).
Proof.
  apply (queryCSV_returns_answer
           (constant_backend (JObject {["answer" := JString "Alice is the top customer"]}))
           "top customer" empty_env
           (Api.mkResponse 200 (JObject {["answer" := JString "Alice is the top customer"]}))
           {["answer" := JString "Alice is the top customer"]}
           "Alice is the top customer");
    reflexivity.
Defined.

(** C1, at two responses without an [answer] field: the backend call succeeds
    with status 200 and the JSON body [{}], or with a body that is not JSON and
    is handed over as text.  [queryCSV] then resolves to [undefined], which is
    not a string, although nothing was thrown and nothing logged. *)
Theorem queryCSV_without_answer_field :
  let empty_object := Api.queryCSV (constant_backend (JObject ∅)) "top customer" empty_env in
  let plain_text :=
    Api.queryCSV (constant_backend (JString "<html>Bad gateway</html>"))
                 "top customer" empty_env in
  fst empty_object = Returns JUndefined /\
  fst plain_text = Returns JUndefined /\
  is_string JUndefined = false /\
  console (snd empty_object) = [] /\
  console (snd plain_text) = [].
Proof. repeat split. Qed.

(** ** The send handler *)

Lemma Promise_race_timer {A} (order : Racer) (p : Outcome A) (t : A) :
  (forall e, p <> Throws e) ->
  exists r, Promise_race order p (Returns t) = Returns r /\
            (p = Hangs \/ order = SecondSettles -> r = t).
Proof.
  intros Hp. destruct p as [a|e|]; [|destruct (Hp e eq_refl)|].
  - destruct order; simpl; eexists; split; try reflexivity; intros [H|H]; congruence.
  - simpl. eauto.
Qed.

Section ChatProperties.

Variable axios_get : string -> list (string * string) -> Outcome Api.AxiosResponse.
Variable order : Racer.

Lemma not_blank_guard (q : string) :
  trim q <> "" -> negb (ToBoolean (JString (trim q))) = false.
Proof.
  intros H. simpl. apply String.eqb_neq in H. rewrite H. reflexivity.
Qed.

(** The [try] block with the timeout promise of [handleSend]: it appends one
    bot message and returns. *)
Lemma handleSend_try_returns (q : string) (st : ChatScreen.State) (env : Env) :
  exists reply,
    ChatScreen.handleSend_try axios_get order q
      (Returns (JString "Sorry, that request timed out.")) (st, env) =
      (Returns tt,
       (ChatScreen.mkState (ChatScreen.question st)
          (ChatScreen.messages st ++ [ChatScreen.mkMessage "bot" reply])
          (ChatScreen.isLoading st),
        snd (Api.queryCSV axios_get q env))) /\
    (axios_get Api.BASE_URL [("question", q)] = Hangs \/ order = SecondSettles ->
     reply = JString "Sorry, that request timed out.").
Proof.
  pose proof (queryCSV_never_throws axios_get q env) as Hnever.
  pose proof (queryCSV_settles axios_get q env) as Hsettles.
  unfold ChatScreen.handleSend_try, bind, start, ChatScreen.onEnv, await,
    ChatScreen.setMessages, modify.
  destruct (Api.queryCSV axios_get q env) as [query env'] eqn:Hq; simpl in *.
  destruct (Promise_race_timer order query
              (JString "Sorry, that request timed out.") Hnever) as [reply [Hrace Hlate]].
  exists reply. rewrite Hrace. split; [reflexivity|].
  intros [Hhang|Hsecond]; apply Hlate; [left|right; assumption].
  rewrite Hhang in Hsettles. destruct query; simpl in Hsettles; congruence.
Qed.

(** A send of a question that is not blank: the user's message, the timer,
    the raced query, the bot's message; the timeout sentence when the query
    never settles or the timer settles first. *)
Lemma handleSend_not_blank (st : ChatScreen.State) (env : Env) :
  trim (ChatScreen.question st) <> "" ->
  exists reply env',
    ChatScreen.handleSend axios_get order (st, env) =
      (Returns tt,
       (ChatScreen.mkState ""
          (ChatScreen.messages st ++
             [ChatScreen.mkMessage "user" (JString (ChatScreen.question st));
              ChatScreen.mkMessage "bot" reply])
          false,
        env')) /\
    timers env' = timers env ++ [7000%N] /\
    requests env' =
      requests env ++ [mkRequest Api.BASE_URL [("question", ChatScreen.question st)]] /\
    (axios_get Api.BASE_URL [("question", ChatScreen.question st)] = Hangs
     \/ order = SecondSettles ->
     reply = JString "Sorry, that request timed out.").
Proof.
  intros Hq. destruct st as [q msgs loading]; simpl in *.
  set (env1 := mkEnv (console env) (requests env) (timers env ++ [7000%N])).
  destruct (handleSend_try_returns q
              (ChatScreen.mkState q
                 (msgs ++ [ChatScreen.mkMessage "user" (JString q)]) true) env1)
    as [reply [Htry Hlate]].
  destruct (queryCSV_env axios_get q env1) as [Htimers Hrequests].
  exists reply, (snd (Api.queryCSV axios_get q env1)).
  split; [|auto].
  simpl in Htry.
  unfold ChatScreen.handleSend, bind at 1, gets.
  cbn [fst ChatScreen.question].
  rewrite (not_blank_guard q Hq).
  unfold bind, ChatScreen.setMessages, ChatScreen.setIsLoading, ChatScreen.setQuestion,
    ChatScreen.onEnv, setTimeout, modify, try_catch; simpl.
  fold env1. rewrite Htry. simpl. rewrite <- app_assoc. reflexivity.
Qed.

(** C8: when the question is empty or consists only of white space,
    [handleSend] returns at once: the question text, the message history and
    the loading flag are unchanged, and so is the environment, so no request
    was sent, no timer set and nothing logged. *)
Theorem handleSend_blank_is_noop (st : ChatScreen.State) (env : Env) :
  Forall (fun c => isWhiteSpace c = true)
         (String.list_ascii_of_string (ChatScreen.question st)) ->
  ChatScreen.handleSend axios_get order (st, env) = (Returns tt, (st, env)).
Proof.
  intros Hblank.
  unfold ChatScreen.handleSend, bind, gets; simpl.
  rewrite (trim_blank _ Hblank). reflexivity.
Qed.

(** C10, amended: the [try] block of [handleSend] never throws, whatever the
    backend does and whichever of the query and the timer settles first, so
    its result does not depend on the [catch] handler; and every send of a
    question that is not blank (non-empty after trimming) appends exactly
    the user's message and one bot message to the history. *)
Theorem handleSend_catch_unreachable (st : ChatScreen.State) (env : Env) :
  trim (ChatScreen.question st) <> "" ->
  (forall (q : string) (s : ChatScreen.State * Env)
          (handler : JsError -> Eff (ChatScreen.State * Env) unit),
      (forall e, fst (ChatScreen.handleSend_try axios_get order q
                        (Returns (JString "Sorry, that request timed out.")) s)
                 <> Throws e) /\
      try_catch (ChatScreen.handleSend_try axios_get order q
                   (Returns (JString "Sorry, that request timed out."))) handler s =
      ChatScreen.handleSend_try axios_get order q
        (Returns (JString "Sorry, that request timed out.")) s) /\
  exists reply env',
    ChatScreen.handleSend axios_get order (st, env) =
      (Returns tt,
       (ChatScreen.mkState ""
          (ChatScreen.messages st ++
             [ChatScreen.mkMessage "user" (JString (ChatScreen.question st));
              ChatScreen.mkMessage "bot" reply])
          false,
        env')).
Proof.
  intros Hq. split.
  - intros q [st0 env0] handler.
    destruct (handleSend_try_returns q st0 env0) as [reply [Htry _]].
    unfold try_catch. rewrite Htry. split; [discriminate|reflexivity].
  - destruct (handleSend_not_blank st env Hq) as [reply [env' [H _]]]. eauto.
Qed.

End ChatProperties.

Lemma handleSend_blank_is_noop_witness :
  let st := ChatScreen.mkState (String " " (String "009" (String "160" "")))
              [ChatScreen.mkMessage "user" (JString "top item")] false in
  ChatScreen.handleSend (constant_backend JNull) FirstSettles (st, empty_env) =
    (Returns tt, (st, empty_env)).
Proof.
  apply (handleSend_blank_is_noop (constant_backend JNull) FirstSettles).
  simpl. repeat constructor.
Defined.

Lemma handleSend_catch_unreachable_witness :
  exists reply env',
    ChatScreen.handleSend silent_backend FirstSettles
      (ChatScreen.mkState "top customer" [] false, empty_env) =
      (Returns tt,
       (ChatScreen.mkState ""
          [ChatScreen.mkMessage "user" (JString "top customer");
           ChatScreen.mkMessage "bot" reply]
          false,
        env')).
Proof.
  apply (handleSend_catch_unreachable silent_backend FirstSettles
           (ChatScreen.mkState "top customer" [] false) empty_env).
  vm_compute. discriminate.
Defined.

(** C10 as stated fails at a question that is not empty but blank: for the
    question of one space the handler returns before the first [setMessages],
    and the history gains neither a user message nor a bot message. *)
Lemma handleSend_space_appends_nothing :
  let st := ChatScreen.mkState " " [] false in
  ChatScreen.question st <> "" /\
  forall reply env',
    ChatScreen.handleSend (constant_backend (JObject {["answer" := JString "ok"]}))
      FirstSettles (st, empty_env) <>
      (Returns tt,
       (ChatScreen.mkState ""
          (ChatScreen.messages st ++
             [ChatScreen.mkMessage "user" (JString (ChatScreen.question st));
              ChatScreen.mkMessage "bot" reply])
          false,
        env')).
Proof.
  split; [discriminate|]. intros reply env'. vm_compute. discriminate.
Qed.

(** ** The CSV loader *)

Section LoaderProperties.

Variable fetch : string -> Outcome DataLoader.Response.
Variable Papa_parse : string -> DataLoader.ParseConfig -> Outcome DataLoader.ParseResult.

Local Abbreviation readFile := (readFile fetch Papa_parse).
Local Abbreviation rows_of := (rows_of fetch Papa_parse).
Local Abbreviation notes_of := (notes_of fetch Papa_parse).
Local Abbreviation loadFile := (DataLoader.loadFile fetch Papa_parse).
Local Abbreviation loadData := (DataLoader.loadData fetch Papa_parse).

(** The [try] block raises exactly when the fetch, the body read or the parse
    does. *)
Lemma readFile_throws (name : string) (e : JsError) :
  readFile name = Throws e <->
  fetch ("/" +:+ name +:+ ".csv") = Throws e \/
  exists response,
    fetch ("/" +:+ name +:+ ".csv") = Returns response /\
    (DataLoader.text response = Throws e \/
     exists body,
       DataLoader.text response = Returns body /\
       Papa_parse body (DataLoader.mkConfig true true) = Throws e).
Proof.
  unfold readFile, DataLoader.parseCSV.
  destruct (fetch _) as [response|e'|]; [| |].
  - destruct (DataLoader.text response) as [body|e'|] eqn:Htext.
    + destruct (Papa_parse body _) as [parsed|e'|] eqn:Hparse.
      * split; [discriminate|].
        intros [|(? & [= <-] & [|(? & ? & ?)])]; congruence.
      * split.
        -- intros [= ->]. right. exists response. split; [reflexivity|].
           right. exists body. split; [exact Htext|exact Hparse].
        -- intros [|(? & [= <-] & [|(? & ? & ?)])]; congruence.
      * split; [discriminate|].
        intros [|(? & [= <-] & [|(? & ? & ?)])]; congruence.
    + split.
      * intros [= ->]. right. exists response. split; [reflexivity|]. left. exact Htext.
      * intros [|(? & [= <-] & [|(? & ? & ?)])]; congruence.
    + split; [discriminate|].
      intros [|(? & [= <-] & [|(? & ? & ?)])]; congruence.
  - split; [intros [= ->]; left; reflexivity|].
    intros [|(? & ? & _)]; congruence.
  - split; [discriminate|]. intros [|(? & ? & _)]; congruence.
Qed.

(** One turn of the loop, by the way the [try] block ends. *)
Lemma loadFile_cases (name : string) (data : gmap string (list JsValue)) (env : Env) :
  loadFile name data env =
    match readFile name with
    | Returns rows =>
        (Returns (<[toLowerCase name := rows]> data),
         mkEnv (console env) (requests env ++ [request_of name]) (timers env))
    | Throws e =>
        (Returns (<[toLowerCase name := []]> data),
         mkEnv (console env ++ [ConsoleError ("Error loading " +:+ name +:+ ".csv:") e])
               (requests env ++ [request_of name]) (timers env))
    | Hangs =>
        (Hangs, mkEnv (console env) (requests env ++ [request_of name]) (timers env))
    end.
Proof.
  unfold DataLoader.loadFile, readFile, try_catch, DataLoader.fetch_call,
    bind, send, modify, await, console_error, ret, request_of.
  destruct (fetch _) as [response|e|]; simpl; try reflexivity.
  destruct (DataLoader.text response) as [body|e|]; simpl; try reflexivity.
  destruct (DataLoader.parseCSV Papa_parse body) as [rows|e|]; reflexivity.
Qed.

(** The loop over any list of file names, when nothing stays pending. *)
Lemma for_of_loadFile (names : list string) :
  forall (data : gmap string (list JsValue)) (env : Env),
    forallb (fun name => settles (readFile name)) names = true ->
    for_of names loadFile data env =
      (Returns (fold_left (fun d name => <[toLowerCase name := rows_of name]> d) names data),
       mkEnv (console env ++ flat_map notes_of names)
             (requests env ++ map request_of names)
             (timers env)).
Proof.
  induction names as [|name names IH]; intros data env Hall; simpl.
  - rewrite !app_nil_r. destruct env; reflexivity.
  - simpl in Hall. apply andb_prop in Hall as [Hname Hrest].
    rewrite loadFile_cases. unfold rows_of, notes_of.
    destruct (readFile name) as [rows|e|]; [| |discriminate];
      rewrite (IH _ _ Hrest); simpl; rewrite <- ?app_assoc; reflexivity.
Qed.

(** The loop never throws: it returns or stays pending, and it stays
    pending when some fetch, body or parse does. *)
Lemma for_of_loadFile_pending (names : list string) :
  forall (data : gmap string (list JsValue)) (env : Env),
    forallb (fun name => settles (readFile name)) names = false ->
    exists env', for_of names loadFile data env = (Hangs, env').
Proof.
  induction names as [|name names IH]; intros data env Hsome; simpl in *;
    [discriminate|].
  rewrite loadFile_cases.
  destruct (readFile name) as [rows|e|]; simpl in Hsome; eauto.
Qed.

Lemma loaded_lookup :
  loaded fetch Papa_parse !! "customers" = Some (rows_of "Customers") /\
  loaded fetch Papa_parse !! "detail" = Some (rows_of "Detail") /\
  loaded fetch Papa_parse !! "inventory" = Some (rows_of "Inventory") /\
  loaded fetch Papa_parse !! "pricelist" = Some (rows_of "Pricelist").
Proof. unfold loaded. repeat split; by simplify_map_eq. Qed.

Lemma loaded_lookup_file (name : string) :
  name ∈ DataLoader.files ->
  loaded fetch Papa_parse !! toLowerCase name = Some (rows_of name).
Proof.
  destruct loaded_lookup as (Hc & Hd & Hi & Hp).
  unfold DataLoader.files. rewrite !elem_of_cons, elem_of_nil.
  intros [->|[->|[->|[->|[]]]]]; assumption.
Qed.

Lemma loaded_dom :
  dom (loaded fetch Papa_parse) =
    ({["customers"; "detail"; "inventory"; "pricelist"]} : gset string).
Proof. unfold loaded. rewrite !dom_insert_L, dom_empty_L. set_solver. Qed.

(** [loadData] when nothing stays pending: the record, the diagnostic notes
    of the failed files followed by the four samples, the four requests. *)
Lemma loadData_settled (env : Env) :
  all_settle fetch Papa_parse = true ->
  loadData env =
    (Returns (loaded fetch Papa_parse),
     mkEnv (console env ++ flat_map notes_of DataLoader.files ++ samples fetch Papa_parse)
           (requests env ++ map request_of DataLoader.files)
           (timers env)).
Proof.
  intros Hall. destruct loaded_lookup as (Hc & Hd & Hi & Hp).
  unfold DataLoader.loadData, bind at 1.
  rewrite (for_of_loadFile DataLoader.files ∅ env Hall).
  change (fold_left _ DataLoader.files ∅) with (loaded fetch Papa_parse).
  unfold bind, await, DataLoader.sample, console_log, modify, ret.
  rewrite Hc, Hi, Hd, Hp. simpl. rewrite <- !app_assoc. reflexivity.
Qed.

(** Otherwise it stays pending. *)
Lemma loadData_pending (env : Env) :
  all_settle fetch Papa_parse = false ->
  exists env', loadData env = (Hangs, env').
Proof.
  intros Hsome.
  destruct (for_of_loadFile_pending DataLoader.files ∅ env Hsome) as [env' H].
  exists env'. unfold DataLoader.loadData, bind at 1. rewrite H. reflexivity.
Qed.

Lemma all_settle_file (name : string) :
  all_settle fetch Papa_parse = true -> name ∈ DataLoader.files ->
  settles (readFile name) = true.
Proof.
  unfold all_settle. rewrite forallb_forall. intros H Hin.
  apply H. apply list_elem_of_In. exact Hin.
Qed.

End LoaderProperties.

Section LoaderClaims.

Variable fetch : string -> Outcome DataLoader.Response.
Variable Papa_parse : string -> DataLoader.ParseConfig -> Outcome DataLoader.ParseResult.

Local Abbreviation readFile := (readFile fetch Papa_parse).
Local Abbreviation loadData := (DataLoader.loadData fetch Papa_parse).

(** C3: when no fetch, body or parse stays pending, [loadData] returns a
    record with exactly the four keys customers, detail, inventory and
    pricelist, the lower-cased file names; and for each file whose fetch and
    body succeed, the value under its key is the [data] array that
    [Papa.parse] returns for the fetched text with [header: true] (the first
    row as field names) and [skipEmptyLines: true]. *)
Theorem loadData_four_parsed_collections (env : Env) :
  all_settle fetch Papa_parse = true ->
  exists data env',
    loadData env = (Returns data, env') /\
    dom data = ({["customers"; "detail"; "inventory"; "pricelist"]} : gset string) /\
    toLowerCase <$> DataLoader.files = ["customers"; "detail"; "inventory"; "pricelist"] /\
    forall name response body parsed,
      name ∈ DataLoader.files ->
      fetch ("/" +:+ name +:+ ".csv") = Returns response ->
      DataLoader.text response = Returns body ->
      Papa_parse body (DataLoader.mkConfig true true) = Returns parsed ->
      data !! toLowerCase name = Some (DataLoader.data parsed).
Proof.
  intros Hall. eexists _, _. split; [apply (loadData_settled _ _ env Hall)|].
  split; [apply loaded_dom|]. split; [reflexivity|].
  intros name response body parsed Hin Hfetch Hbody Hparse.
  rewrite (loaded_lookup_file _ _ name Hin).
  unfold rows_of, readFile, DataLoader.parseCSV.
  rewrite Hfetch, Hbody, Hparse. reflexivity.
Qed.

(** Nothing stays pending when no fetch, no body read and no parse does. *)
Lemma all_settle_from_platform :
  (forall name, name ∈ DataLoader.files ->
     fetch ("/" +:+ name +:+ ".csv") <> Hangs /\
     forall response, fetch ("/" +:+ name +:+ ".csv") = Returns response ->
       DataLoader.text response <> Hangs /\
       forall body, DataLoader.text response = Returns body ->
         Papa_parse body (DataLoader.mkConfig true true) <> Hangs) ->
  all_settle fetch Papa_parse = true.
Proof.
  intros Hsettle. unfold all_settle. apply forallb_forall. intros name Hin.
  apply list_elem_of_In in Hin. destruct (Hsettle name Hin) as [Hfetch Hrest].
  unfold readFile, DataLoader.parseCSV.
  destruct (fetch _) as [response|e|]; [|reflexivity|congruence].
  destruct (Hrest response eq_refl) as [Htext Hparse].
  destruct (DataLoader.text response) as [body|e|]; [|reflexivity|congruence].
  specialize (Hparse body eq_refl).
  destruct (Papa_parse body _) as [parsed|e|]; [reflexivity|reflexivity|congruence].
Qed.

(** C4: when no fetch, body read or parse stays pending, so that every
    dataset either raises or loads, [loadData] returns normally.  Each dataset
    for which [fetch] rejects, [response.text()] rejects or [Papa.parse]
    throws has its key bound to the empty collection and that error on the
    console under "Error loading <name>.csv:"; each dataset that was fetched,
    read and parsed has its key bound to the parsed rows, whatever happened to
    the others. *)
Theorem loadData_partial_failure (env : Env) :
  (forall name, name ∈ DataLoader.files ->
     fetch ("/" +:+ name +:+ ".csv") <> Hangs /\
     forall response, fetch ("/" +:+ name +:+ ".csv") = Returns response ->
       DataLoader.text response <> Hangs /\
       forall body, DataLoader.text response = Returns body ->
         Papa_parse body (DataLoader.mkConfig true true) <> Hangs) ->
  exists data env',
    loadData env = (Returns data, env') /\
    forall name, name ∈ DataLoader.files ->
      (forall e,
         (fetch ("/" +:+ name +:+ ".csv") = Throws e \/
          exists response,
            fetch ("/" +:+ name +:+ ".csv") = Returns response /\
            (DataLoader.text response = Throws e \/
             exists body,
               DataLoader.text response = Returns body /\
               Papa_parse body (DataLoader.mkConfig true true) = Throws e)) ->
         data !! toLowerCase name = Some [] /\
         ConsoleError ("Error loading " +:+ name +:+ ".csv:") e ∈ console env') /\
      (forall response body parsed,
         fetch ("/" +:+ name +:+ ".csv") = Returns response ->
         DataLoader.text response = Returns body ->
         Papa_parse body (DataLoader.mkConfig true true) = Returns parsed ->
         data !! toLowerCase name = Some (DataLoader.data parsed)).
Proof.
  intros Hsettle. pose proof (all_settle_from_platform Hsettle) as Hall.
  eexists _, _. split; [apply (loadData_settled _ _ env Hall)|].
  intros name Hin. rewrite (loaded_lookup_file _ _ name Hin). unfold rows_of.
  split.
  - intros e He. apply (readFile_throws fetch Papa_parse) in He.
    rewrite He. split; [reflexivity|]. cbn [console].
    rewrite !elem_of_app. right. left.
    apply list_elem_of_In, in_flat_map. exists name.
    split; [apply list_elem_of_In; exact Hin|].
    unfold notes_of. rewrite He. left. reflexivity.
  - intros response body parsed Hfetch Hbody Hparse.
    unfold readFile, DataLoader.parseCSV. rewrite Hfetch, Hbody, Hparse. reflexivity.
Qed.

(** C9: [loadData] never throws, so the four reads [data.customers],
    [data.inventory], [data.detail], [data.pricelist] after the loop never
    meet a missing key; whenever it returns, each of the four keys is bound
    to an array; and it returns whenever no fetch, body or parse stays
    pending, whichever of them succeed or fail. *)
Theorem loadData_keys_always_bound (env : Env) :
  (forall e, fst (loadData env) <> Throws e) /\
  (forall data env', loadData env = (Returns data, env') ->
     forall key, key ∈ ["customers"; "detail"; "inventory"; "pricelist"] ->
       exists rows, data !! key = Some rows /\
                    DataLoader.sample data key = Returns (take 3 rows)) /\
  (all_settle fetch Papa_parse = true ->
     exists data env', loadData env = (Returns data, env')).
Proof.
  destruct (all_settle fetch Papa_parse) eqn:Hall.
  - rewrite (loadData_settled _ _ env Hall). split; [discriminate|]. split; [|eauto].
    intros data env' [= <- _] key.
    destruct (loaded_lookup fetch Papa_parse) as (Hc & Hd & Hi & Hp).
    rewrite !elem_of_cons, elem_of_nil. unfold DataLoader.sample.
    intros [->|[->|[->|[->|[]]]]]; eexists; split; try eassumption;
      rewrite ?Hc, ?Hd, ?Hi, ?Hp; reflexivity.
  - destruct (loadData_pending _ _ env Hall) as [env' H]. rewrite H.
    split; [discriminate|]. split; [discriminate|discriminate].
Qed.

End LoaderClaims.

Lemma loadData_four_parsed_collections_witness :
  exists data env',
    DataLoader.loadData serving_fetch example_parse empty_env = (Returns data, env') /\
    dom data = ({["customers"; "detail"; "inventory"; "pricelist"]} : gset string) /\
    data !! "detail" = Some [JObject {["raw" := JString "/Detail.csv"]}].
Proof.
  destruct (loadData_four_parsed_collections serving_fetch example_parse empty_env)
    as (data & env' & Hload & Hdom & _ & Hrows); [reflexivity|].
  exists data, env'. split; [exact Hload|]. split; [exact Hdom|].
  apply (Hrows "Detail" (DataLoader.mkFetched 200 (Returns "/Detail.csv")) "/Detail.csv"
           (DataLoader.mkParsed [JObject {["raw" := JString "/Detail.csv"]}] []));
    [repeat constructor|reflexivity..].
Defined.

Lemma loadData_partial_failure_witness :
  exists data env',
    DataLoader.loadData example_fetch throwing_parse empty_env = (Returns data, env') /\
    data !! "detail" = Some [] /\
    ConsoleError "Error loading Detail.csv:" (TypeError "Failed to fetch") ∈ console env' /\
    data !! "inventory" = Some [] /\
    ConsoleError "Error loading Inventory.csv:" (TypeError "body stream already read")
      ∈ console env' /\
    data !! "pricelist" = Some [] /\
    ConsoleError "Error loading Pricelist.csv:" (mkError "Error" "Unable to parse")
      ∈ console env' /\
    data !! "customers" = Some [JObject {["raw" := JString "id,name"]}].
Proof.
  destruct (loadData_partial_failure example_fetch throwing_parse empty_env)
    as (data & env' & Hload & Hfiles).
  { intros name Hin. unfold DataLoader.files in Hin.
    rewrite !elem_of_cons, elem_of_nil in Hin.
    destruct Hin as [->|[->|[->|[->|[]]]]]; (split; [discriminate|]);
      intros response [= <-]; (split; [discriminate|]);
      intros body [= <-]; discriminate. }
  exists data, env'. split; [exact Hload|].
  destruct (Hfiles "Detail") as [Hdetail _]; [repeat constructor|].
  destruct (Hdetail (TypeError "Failed to fetch")) as [Hd1 Hd2]; [left; reflexivity|].
  destruct (Hfiles "Inventory") as [Hinventory _]; [repeat constructor|].
  destruct (Hinventory (TypeError "body stream already read")) as [Hi1 Hi2].
  { right. eexists. split; [reflexivity|]. left. reflexivity. }
  destruct (Hfiles "Pricelist") as [Hpricelist _]; [repeat constructor|].
  destruct (Hpricelist (mkError "Error" "Unable to parse")) as [Hp1 Hp2].
  { right. eexists. split; [reflexivity|]. right. eexists. split; reflexivity. }
  destruct (Hfiles "Customers") as [_ Hcustomers]; [repeat constructor|].
  repeat (split; [assumption|]).
  apply (Hcustomers (DataLoader.mkFetched 200 (Returns "id,name")) "id,name"
           (DataLoader.mkParsed [JObject {["raw" := JString "id,name"]}] []));
    reflexivity.
Defined.

Lemma loadData_keys_always_bound_witness :
  exists data env',
    DataLoader.loadData example_fetch example_parse empty_env = (Returns data, env') /\
    exists rows, data !! "inventory" = Some rows.
Proof.
  destruct (loadData_keys_always_bound example_fetch example_parse empty_env)
    as (_ & Hkeys & Hreturns).
  destruct Hreturns as (data & env' & Hload); [reflexivity|].
  exists data, env'. split; [exact Hload|].
  destruct (Hkeys data env' Hload "inventory") as (rows & Hrows & _); [repeat constructor|].
  exists rows. exact Hrows.
Defined.

(** ** The intent classifier *)

(** C6: the classifier maps "Show items under $5" to [ItemsUnderPrice] with
    threshold 5.0: of the table's rows only "under $" occurs in the lower-cased
    text, and the number after it reads as the float 5. *)
Theorem classify_show_items_under_5 :
  Engine.classify "Show items under $5" = Engine.ItemsUnderPrice 5%float.
Proof. vm_compute. reflexivity. Qed.

(** The other two price phrasings and a decimal threshold. *)
Example classify_below_and_less_than :
  Engine.classify "anything BELOW $5?" = Engine.ItemsUnderPrice 5%float /\
  Engine.classify "Items less than $12.50, please" = Engine.ItemsUnderPrice 12.5%float.
Proof. split; vm_compute; reflexivity. Qed.

Example classify_top_customer_and_unrecognized :
  Engine.classify "Who is the TOP customer?" = Engine.TopCustomer /\
  Engine.classify "what's the weather" = Engine.Unrecognized "what's the weather".
Proof. split; vm_compute; reflexivity. Qed.

(** ** The top-customer resolver *)

Lemma better_beats (a b : string * Q) : Engine.better a b = true <-> beats a b.
Proof.
  unfold Engine.better, beats, String.le.
  destruct (snd a ?= snd b)%Q eqn:Hcmp.
  - apply Qeq_alt in Hcmp. split.
    + intros H. right. split; [exact Hcmp|]. apply Is_true_true. exact H.
    + intros [Hlt|[_ Hle]].
      * rewrite Hcmp in Hlt. destruct (Qlt_irrefl _ Hlt).
      * apply Is_true_true. exact Hle.
  - apply Qlt_alt in Hcmp. split; [discriminate|].
    intros [Hlt|[Heq _]].
    + destruct (Qlt_irrefl _ (Qlt_trans _ _ _ Hlt Hcmp)).
    + rewrite Heq in Hcmp. destruct (Qlt_irrefl _ Hcmp).
  - apply Qgt_alt in Hcmp. split; [intros _; left; exact Hcmp|reflexivity].
Qed.

Lemma not_better_beats (a b : string * Q) : Engine.better a b = false -> beats b a.
Proof.
  unfold Engine.better, beats, String.le.
  destruct (snd a ?= snd b)%Q eqn:Hcmp.
  - apply Qeq_alt in Hcmp. intros H. right. split; [symmetry; exact Hcmp|].
    destruct (String.leb_total (fst a) (fst b)) as [Hab|Hba]; [congruence|].
    apply Is_true_true. exact Hba.
  - apply Qlt_alt in Hcmp. intros _. left. exact Hcmp.
  - discriminate.
Qed.

Lemma beats_refl (a : string * Q) : beats a a.
Proof. right. split; reflexivity. Qed.

Lemma beats_trans (a b c : string * Q) : beats a b -> beats b c -> beats a c.
Proof.
  unfold beats. intros [Hab|[Hab Hle1]] [Hbc|[Hbc Hle2]].
  - left. exact (Qlt_trans _ _ _ Hbc Hab).
  - left. rewrite <- Hbc. exact Hab.
  - left. rewrite Hab. exact Hbc.
  - right. split; [rewrite Hab; exact Hbc|]. etrans; eassumption.
Qed.

(** Two entries that beat each other have equal totals and the same
    identifier. *)
Lemma beats_antisym (a b : string * Q) :
  beats a b -> beats b a -> (snd a == snd b)%Q /\ fst a = fst b.
Proof.
  unfold beats. intros [Hab|[Hab Hle1]] [Hba|[Hba Hle2]].
  - destruct (Qlt_irrefl _ (Qlt_trans _ _ _ Hab Hba)).
  - rewrite Hba in Hab. destruct (Qlt_irrefl _ Hab).
  - rewrite Hab in Hba. destruct (Qlt_irrefl _ Hba).
  - split; [exact Hab|]. apply (anti_symm String.le); assumption.
Qed.

(** What [beats] says in the terms of the tie-break rule. *)
Lemma beats_max_then_smallest (a b : string * Q) :
  beats a b -> (snd b <= snd a)%Q /\ ((snd b == snd a)%Q -> String.le (fst a) (fst b)).
Proof.
  intros [Hlt|[Heq Hle]].
  - split; [apply Qlt_le_weak; exact Hlt|].
    intros Heq. rewrite Heq in Hlt. destruct (Qlt_irrefl _ Hlt).
  - split; [rewrite Heq; apply Qle_refl|intros _; exact Hle].
Qed.

(** The selected entry is one of the entries and beats them all. *)
Lemma select_top_beats (entries : list (string * Q)) (r : string * Q) :
  Engine.select_top entries = Some r ->
  r ∈ entries /\ forall e, e ∈ entries -> beats r e.
Proof.
  revert r. induction entries as [|e entries IH]; intros r; simpl; [discriminate|].
  destruct (Engine.select_top entries) as [b|] eqn:Hrest.
  - destruct (IH b eq_refl) as [Hin Hall].
    destruct (Engine.better e b) eqn:Hbetter; intros [= <-].
    + apply better_beats in Hbetter. split; [left|].
      intros e' [->|He']%elem_of_cons; [apply beats_refl|].
      exact (beats_trans _ _ _ Hbetter (Hall e' He')).
    + apply not_better_beats in Hbetter. split; [right; exact Hin|].
      intros e' [->|He']%elem_of_cons; [exact Hbetter|exact (Hall e' He')].
  - intros [= <-]. destruct entries as [|e' entries]; [|simpl in Hrest].
    + split; [left|]. intros e' [->|He']%elem_of_cons; [apply beats_refl|].
      inversion He'.
    + destruct (Engine.select_top entries) as [b|];
        [destruct (Engine.better e' b)|]; discriminate.
Qed.

Lemma select_top_is_Some (entries : list (string * Q)) :
  entries <> [] -> is_Some (Engine.select_top entries).
Proof.
  destruct entries as [|e entries]; [congruence|]. intros _. simpl.
  destruct (Engine.select_top entries) as [b|]; [destruct (Engine.better e b)|]; eauto.
Qed.

(** The selection does not depend on the order in which the entries of a
    mapping are listed. *)
Lemma select_top_order_independent (entries entries' : list (string * Q)) (r : string * Q) :
  NoDup (fst <$> entries) ->
  entries ≡ₚ entries' ->
  Engine.select_top entries = Some r ->
  Engine.select_top entries' = Some r.
Proof.
  intros Hnodup Hperm Hr.
  destruct (select_top_beats _ _ Hr) as [Hin Hall].
  destruct (select_top_is_Some entries') as [r' Hr'].
  { intros ->. apply Permutation_nil_r in Hperm. subst. inversion Hin. }
  destruct (select_top_beats _ _ Hr') as [Hin' Hall'].
  rewrite Hr'. f_equal.
  assert (r' ∈ entries) as Hin'' by (rewrite Hperm; exact Hin').
  assert (r ∈ entries') as Hin''' by (rewrite <- Hperm; exact Hin).
  destruct (beats_antisym r r' (Hall r' Hin'') (Hall' r Hin''')) as [_ Hfst].
  destruct r as [c t], r' as [c' t']; simpl in Hfst; subst c'. f_equal.
  clear -Hnodup Hin Hin''.
  induction entries as [|[k v] entries IH]; [inversion Hin|].
  rewrite fmap_cons in Hnodup. apply NoDup_cons in Hnodup as [Hfresh Hnodup].
  apply elem_of_cons in Hin as [Hin|Hin], Hin'' as [Hin''|Hin''].
  - congruence.
  - inversion Hin; subst. destruct Hfresh.
    apply list_elem_of_fmap. eexists. split; [|exact Hin'']. reflexivity.
  - inversion Hin''; subst. destruct Hfresh.
    apply list_elem_of_fmap. eexists. split; [|exact Hin]. reflexivity.
  - exact (IH Hnodup Hin Hin'').
Qed.

(** Only identifiers of the customer table receive a total. *)
Lemma customerSpend_known (snap : Engine.Snapshot) (c : string) (t : Q) :
  Engine.customerSpend snap !! c = Some t -> Engine.known_customer snap c = true.
Proof.
  unfold Engine.customerSpend.
  assert (forall c t, (∅ : gmap string Q) !! c = Some t ->
                      Engine.known_customer snap c = true) as Hinv
    by (intros c' t'; rewrite lookup_empty; discriminate).
  revert c t. generalize dependent (∅ : gmap string Q).
  induction (Engine.detail snap) as [|l lines IH]; intros spend Hinv c t; simpl.
  - apply Hinv.
  - apply IH. intros c' t'. unfold Engine.add_line.
    destruct (Engine.line_amount l) as [amount|]; [|apply Hinv].
    destruct (Engine.known_customer snap (Engine.line_customer l)) eqn:Hknown;
      [|apply Hinv].
    destruct (decide (Engine.line_customer l = c')) as [<-|Hne].
    + intros _. exact Hknown.
    + rewrite lookup_insert_ne by exact Hne. apply Hinv.
Qed.

Lemma known_customer_nonempty (snap : Engine.Snapshot) (c : string) :
  Engine.known_customer snap c = true -> Engine.customers snap <> [].
Proof.
  unfold Engine.known_customer. destruct (Engine.customers snap); [discriminate|congruence].
Qed.

Lemma invocations_replicate (n : nat) (snap : Engine.Snapshot) :
  Engine.invocations n snap = replicate n (Engine.TopCustomerResolver snap).
Proof.
  unfold Engine.invocations. generalize 0%nat.
  induction n as [|n IH]; intros start; simpl; [reflexivity|].
  rewrite IH. reflexivity.
Qed.

(** The resolver on a snapshot in which some customer [c1] holds the maximum
    total. *)
Lemma TopCustomerResolver_selects (snap : Engine.Snapshot) (c1 : string) (t1 : Q) :
  Engine.customerSpend snap !! c1 = Some t1 ->
  (forall c t, Engine.customerSpend snap !! c = Some t -> (t <= t1)%Q) ->
  exists r,
    Engine.TopCustomerResolver snap = inr r /\
    Engine.customerSpend snap !! Engine.top_id r = Some (Engine.top_total r) /\
    (Engine.top_total r == t1)%Q /\
    (forall c t, Engine.customerSpend snap !! c = Some t -> (t == t1)%Q ->
                 String.le (Engine.top_id r) c) /\
    (forall entries, entries ≡ₚ map_to_list (Engine.customerSpend snap) ->
                     Engine.select_top entries = Some (Engine.top_id r, Engine.top_total r)).
Proof.
  intros Hc1 Hmax.
  pose proof (known_customer_nonempty _ _ (customerSpend_known _ _ _ Hc1)) as Hcustomers.
  destruct (select_top_is_Some (map_to_list (Engine.customerSpend snap)))
    as [[id total] Htop].
  { intros Hnil. apply elem_of_map_to_list in Hc1. rewrite Hnil in Hc1. inversion Hc1. }
  destruct (select_top_beats _ _ Htop) as [Hin Hall].
  assert (Engine.TopCustomerResolver snap =
          inr (Engine.mkTop id (Engine.display_name snap id) total)) as Hresolve.
  { unfold Engine.TopCustomerResolver.
    destruct (Engine.customers snap); [congruence|]. rewrite Htop. reflexivity. }
  assert (total == t1)%Q as Htotal.
  { apply Qle_antisym.
    - apply (Hmax id). apply elem_of_map_to_list. exact Hin.
    - apply (beats_max_then_smallest (id, total) (c1, t1)).
      apply Hall. apply elem_of_map_to_list. exact Hc1. }
  eexists. split; [exact Hresolve|]. simpl.
  split; [apply elem_of_map_to_list; exact Hin|].
  split; [exact Htotal|].
  split.
  - intros c t Hc Ht.
    apply (beats_max_then_smallest (id, total) (c, t)).
    + apply Hall. apply elem_of_map_to_list. exact Hc.
    + simpl. rewrite Ht, Htotal. reflexivity.
  - intros entries Hperm.
    apply (select_top_order_independent (map_to_list (Engine.customerSpend snap)));
      [apply NoDup_fst_map_to_list|symmetry; exact Hperm|exact Htop].
Qed.

(** C7: in every snapshot in which two different customers [c1] and [c2] share
    the maximum total spend, [TopCustomerResolver] returns a customer that has
    the maximum total and whose identifier is lexicographically no larger than
    [c1], than [c2], and than that of any other customer with the maximum
    total; any number of invocations on the snapshot return this same
    customer, and so does the selection on any other listing order of the
    totals. *)
Theorem TopCustomerResolver_tie_break
    (snap : Engine.Snapshot) (c1 c2 : string) (t1 t2 : Q) :
  c1 <> c2 ->
  Engine.customerSpend snap !! c1 = Some t1 ->
  Engine.customerSpend snap !! c2 = Some t2 ->
  (t1 == t2)%Q ->
  (forall c t, Engine.customerSpend snap !! c = Some t -> (t <= t1)%Q) ->
  exists r,
    Engine.TopCustomerResolver snap = inr r /\
    Engine.customerSpend snap !! Engine.top_id r = Some (Engine.top_total r) /\
    (Engine.top_total r == t1)%Q /\
    String.le (Engine.top_id r) c1 /\
    String.le (Engine.top_id r) c2 /\
    (forall c t, Engine.customerSpend snap !! c = Some t -> (t == t1)%Q ->
                 String.le (Engine.top_id r) c) /\
    (forall n, Engine.invocations n snap = replicate n (inr r)) /\
    (forall entries, entries ≡ₚ map_to_list (Engine.customerSpend snap) ->
                     Engine.select_top entries = Some (Engine.top_id r, Engine.top_total r)).
Proof.
  intros _ Hc1 Hc2 Htie Hmax.
  destruct (TopCustomerResolver_selects snap c1 t1 Hc1 Hmax)
    as (r & Hresolve & Hin & Htotal & Hsmallest & Horder).
  exists r. split; [exact Hresolve|]. split; [exact Hin|]. split; [exact Htotal|].
  split; [apply (Hsmallest c1 t1 Hc1); reflexivity|].
  split; [apply (Hsmallest c2 t2 Hc2); symmetry; exact Htie|].
  split; [exact Hsmallest|]. split; [|exact Horder].
  intros n. rewrite invocations_replicate, Hresolve. reflexivity.
Qed.

Lemma TopCustomerResolver_tie_break_witness :
  Engine.TopCustomerResolver tied_snapshot = inr (Engine.mkTop "c1" "Alice" 10) /\
  Engine.invocations 3 tied_snapshot =
    replicate 3 (inr (Engine.mkTop "c1" "Alice" 10)).
Proof.
  destruct (TopCustomerResolver_tie_break tied_snapshot "c2" "c1" 10 10)
    as (r & Hresolve & _ & _ & _ & _ & _ & Hrepeat & _).
  - discriminate.
  - vm_compute. reflexivity.
  - vm_compute. reflexivity.
  - reflexivity.
  - intros c t Hc. apply elem_of_map_to_list in Hc.
    let totals := eval vm_compute in (map_to_list (Engine.customerSpend tied_snapshot)) in
    change (map_to_list (Engine.customerSpend tied_snapshot)) with totals in Hc.
    rewrite !elem_of_cons, elem_of_nil in Hc.
    destruct Hc as [[= _ ->]|[[= _ ->]|[[= _ ->]|[]]]];
      apply Qle_bool_imp_le; reflexivity.
  - assert (r = Engine.mkTop "c1" "Alice" 10) as ->
      by (vm_compute in Hresolve; congruence).
    split; [exact Hresolve|exact (Hrepeat 3%nat)].
Defined.


(** * Further properties of the client code *)

(** ** [queryCSV] *)

(** X1: the promise of [queryCSV] never rejects, whatever the backend call
    does, and it is pending exactly when the backend call is: [queryCSV]
    neither gives up on a pending call nor outlives a settled one. *)
Theorem queryCSV_never_rejects_pending_with_backend
    (axios_get : string -> list (string * string) -> Outcome Api.AxiosResponse)
    (question : string) (env : Env) :
  (forall e, fst (Api.queryCSV axios_get question env) <> Throws e) /\
  (fst (Api.queryCSV axios_get question env) = Hangs <->
   axios_get Api.BASE_URL [("question", question)] = Hangs).
Proof.
  split; [intros e; apply queryCSV_never_throws|].
  pose proof (queryCSV_settles axios_get question env) as H.
  destruct (fst (Api.queryCSV axios_get question env)),
    (axios_get Api.BASE_URL [("question", question)]);
    simpl in H; split; congruence.
Qed.

(** X2: when the backend call is rejected with an error, [queryCSV] returns
    the sentence "Sorry, something went wrong while querying the data." and
    writes the error to the console under "API error:". *)
Theorem queryCSV_rejection_becomes_fallback
    (axios_get : string -> list (string * string) -> Outcome Api.AxiosResponse)
    (question : string) (env : Env) (e : JsError) :
  axios_get Api.BASE_URL [("question", question)] = Throws e ->
  fst (Api.queryCSV axios_get question env) =
    Returns (JString "Sorry, something went wrong while querying the data.") /\
  console (snd (Api.queryCSV axios_get question env)) =
    console env ++ [ConsoleError "API error:" e].
Proof.
  intros H. rewrite (queryCSV_rejected axios_get question env e H). split; reflexivity.
Qed.

Lemma queryCSV_rejection_becomes_fallback_witness :
  fst (Api.queryCSV (failing_backend (mkError "AxiosError" "Network Error"))
                    "top item" empty_env) =
    Returns (JString "Sorry, something went wrong while querying the data.") /\
  console (snd (Api.queryCSV (failing_backend (mkError "AxiosError" "Network Error"))
                             "top item" empty_env)) =
    [ConsoleError "API error:" (mkError "AxiosError" "Network Error")].
Proof.
  apply (queryCSV_rejection_becomes_fallback
           (failing_backend (mkError "AxiosError" "Network Error"))
           "top item" empty_env (mkError "AxiosError" "Network Error")).
  reflexivity.
Defined.

(** X3: when the backend call succeeds with the body [null] or without a body
    ([undefined]), reading [answer] throws a [TypeError] inside the [try]
    block; [queryCSV] catches it, logs it and returns the fallback sentence. *)
Theorem queryCSV_null_body_becomes_fallback
    (axios_get : string -> list (string * string) -> Outcome Api.AxiosResponse)
    (question : string) (env : Env) (response : Api.AxiosResponse) :
  axios_get Api.BASE_URL [("question", question)] = Returns response ->
  Api.data response = JNull \/ Api.data response = JUndefined ->
  exists message,
    Api.queryCSV axios_get question env =
      (Returns (JString "Sorry, something went wrong while querying the data."),
       mkEnv (console env ++ [ConsoleError "API error:" (TypeError message)])
             (requests env ++ [mkRequest Api.BASE_URL [("question", question)]])
             (timers env)).
Proof.
  intros Hget Hbody. rewrite queryCSV_cases, Hget.
  destruct Hbody as [-> | ->]; simpl; eexists; reflexivity.
Qed.

Lemma queryCSV_null_body_becomes_fallback_witness :
  exists message,
    Api.queryCSV (constant_backend JNull) "top item" empty_env =
      (Returns (JString "Sorry, something went wrong while querying the data."),
       mkEnv [ConsoleError "API error:" (TypeError message)]
             [mkRequest Api.BASE_URL [("question", "top item")]] []).
Proof.
  apply (queryCSV_null_body_becomes_fallback (constant_backend JNull) "top item" empty_env
           (Api.mkResponse 200 JNull)); [reflexivity|left; reflexivity].
Defined.


(** X5: a result of [queryCSV] that is not a string never comes from the
    [catch] path: the backend call succeeded, the result is what reading
    [answer] from its body gave, and nothing was logged. *)
Theorem queryCSV_non_string_result
    (axios_get : string -> list (string * string) -> Outcome Api.AxiosResponse)
    (question : string) (env env' : Env) (v : JsValue) :
  Api.queryCSV axios_get question env = (Returns v, env') ->
  is_string v = false ->
  exists response,
    axios_get Api.BASE_URL [("question", question)] = Returns response /\
    getProp (Api.data response) "answer" = Returns v /\
    console env' = console env.
Proof.
  rewrite queryCSV_cases. intros H Hv.
  destruct (axios_get _ _) as [response|e|]; [| |discriminate].
  - exists response. split; [reflexivity|].
    destruct (getProp _ _) as [v'|e|]; [| |discriminate].
    + injection H as <- <-. split; reflexivity.
    + injection H as <- _. discriminate.
  - injection H as <- _. discriminate.
Qed.

Lemma queryCSV_non_string_result_witness :
  exists response,
    constant_backend (JObject {["answer" := JNumber 42]}) Api.BASE_URL
                     [("question", "top item")] = Returns response /\
    getProp (Api.data response) "answer" = Returns (JNumber 42) /\
    console (requested "top item" empty_env) = console empty_env.
Proof.
  apply (queryCSV_non_string_result (constant_backend (JObject {["answer" := JNumber 42]}))
           "top item" empty_env (requested "top item" empty_env) (JNumber 42));
    reflexivity.
Defined.

(** ** [loadData] *)

Section LoaderFurther.

Variable fetch : string -> Outcome DataLoader.Response.
Variable Papa_parse : string -> DataLoader.ParseConfig -> Outcome DataLoader.ParseResult.

Local Abbreviation readFile := (readFile fetch Papa_parse).
Local Abbreviation notes_of := (notes_of fetch Papa_parse).
Local Abbreviation loadFile := (DataLoader.loadFile fetch Papa_parse).
Local Abbreviation loadData := (DataLoader.loadData fetch Papa_parse).

(** The loop stops at the first file that stays pending. *)
Lemma for_of_loadFile_stops (before after : list string) (name : string) :
  forall (data : gmap string (list JsValue)) (env : Env),
    (forall n, n ∈ before -> settles (readFile n) = true) ->
    readFile name = Hangs ->
    for_of (before ++ name :: after) loadFile data env =
      (Hangs,
       mkEnv (console env ++ flat_map notes_of before)
             (requests env ++ map request_of (before ++ [name]))
             (timers env)).
Proof.
  induction before as [|n before IH]; intros data env Hbefore Hname; simpl.
  - rewrite loadFile_cases, Hname, app_nil_r. reflexivity.
  - rewrite loadFile_cases.
    pose proof (Hbefore n ltac:(left)) as Hn.
    assert (forall n', n' ∈ before -> settles (readFile n') = true) as Hrest
      by (intros n' Hin; apply Hbefore; right; exact Hin).
    unfold notes_of at 1.
    destruct (readFile n) as [rows|e|]; [| |discriminate];
      rewrite (IH _ _ Hrest Hname); simpl; rewrite <- ?app_assoc; reflexivity.
Qed.

(** X6: when no fetch, body read or parse stays pending, [loadData] returns
    the record of the four collections (the parsed rows, or [[]] for a file
    that failed); it has fetched the four files once each, in the order
    Customers, Detail, Inventory, Pricelist; and the console has gained the
    error notes of the failed files in that order, followed by the samples
    (the first three rows at most) of customers, inventory, detail and
    pricelist, in this order.  Earlier console lines and requests are kept. *)
Theorem loadData_trace (env : Env) :
  all_settle fetch Papa_parse = true ->
  loadData env =
    (Returns (loaded fetch Papa_parse),
     mkEnv (console env
              ++ notes_of "Customers" ++ notes_of "Detail"
              ++ notes_of "Inventory" ++ notes_of "Pricelist"
              ++ samples fetch Papa_parse)
           (requests env ++
              [ mkRequest "/Customers.csv" []; mkRequest "/Detail.csv" [];
                mkRequest "/Inventory.csv" []; mkRequest "/Pricelist.csv" [] ])
           (timers env)).
Proof.
  intros Hall. rewrite (loadData_settled fetch Papa_parse env Hall).
  simpl. rewrite app_nil_r, <- !app_assoc. reflexivity.
Qed.

(** X7: the files are loaded one after the other.  When the files before
    [name] settle and the fetch, body read or parse of [name] stays pending,
    [loadData] stays pending: it returns no record, the files after [name] are
    never requested, and no sample is logged. *)
Theorem loadData_stops_at_pending_file
    (env : Env) (before after : list string) (name : string) :
  DataLoader.files = before ++ name :: after ->
  (forall n, n ∈ before -> settles (readFile n) = true) ->
  readFile name = Hangs ->
  loadData env =
    (Hangs,
     mkEnv (console env ++ flat_map notes_of before)
           (requests env ++ map request_of (before ++ [name]))
           (timers env)).
Proof.
  intros Hfiles Hbefore Hname.
  unfold DataLoader.loadData, bind at 1. rewrite Hfiles.
  rewrite (for_of_loadFile_stops before after name ∅ env Hbefore Hname). reflexivity.
Qed.

End LoaderFurther.

Lemma loadData_trace_witness :
  DataLoader.loadData example_fetch example_parse empty_env =
    (Returns (<["pricelist" := [JObject {["raw" := JString "item,price"]}] ]>
                (<["inventory" := [] ]>
                   (<["detail" := [] ]>
                      (<["customers" := [JObject {["raw" := JString "id,name"]}] ]> ∅)))),
     mkEnv [ ConsoleError "Error loading Detail.csv:" (TypeError "Failed to fetch");
             ConsoleError "Error loading Inventory.csv:" (TypeError "body stream already read");
             ConsoleLog "Customers sample:" [JObject {["raw" := JString "id,name"]}];
             ConsoleLog "Inventory sample:" [];
             ConsoleLog "Details sample:" [];
             ConsoleLog "Pricelist sample:" [JObject {["raw" := JString "item,price"]}] ]
           [ mkRequest "/Customers.csv" []; mkRequest "/Detail.csv" [];
             mkRequest "/Inventory.csv" []; mkRequest "/Pricelist.csv" [] ]
           []).
Proof.
  apply (loadData_trace example_fetch example_parse empty_env). reflexivity.
Defined.

Lemma loadData_stops_at_pending_file_witness :
  DataLoader.loadData stalled_fetch example_parse empty_env =
    (Hangs,
     mkEnv [ConsoleError "Error loading Customers.csv:" (TypeError "Failed to fetch")]
           [mkRequest "/Customers.csv" []; mkRequest "/Detail.csv" []]
           []).
Proof.
  apply (loadData_stops_at_pending_file stalled_fetch example_parse empty_env
           ["Customers"] ["Inventory"; "Pricelist"] "Detail").
  - reflexivity.
  - intros n Hn. apply list_elem_of_singleton in Hn. subst n. reflexivity.
  - reflexivity.
Defined.

(** [loadData] depends on the platform only through the way the [try] block
    ends for each file. *)
Lemma loadData_ext
    (fetch fetch' : string -> Outcome DataLoader.Response)
    (Papa_parse Papa_parse' : string -> DataLoader.ParseConfig -> Outcome DataLoader.ParseResult) :
  (forall name, readFile fetch Papa_parse name = readFile fetch' Papa_parse' name) ->
  forall env,
    DataLoader.loadData fetch Papa_parse env = DataLoader.loadData fetch' Papa_parse' env.
Proof.
  intros Hsame env.
  assert (forall names data env0,
            for_of names (DataLoader.loadFile fetch Papa_parse) data env0 =
            for_of names (DataLoader.loadFile fetch' Papa_parse') data env0) as Hloop.
  { induction names as [|name names IH]; intros data env0; simpl; [reflexivity|].
    rewrite !loadFile_cases, Hsame.
    destruct (readFile fetch' Papa_parse' name); try reflexivity; apply IH. }
  unfold DataLoader.loadData, bind. rewrite Hloop. reflexivity.
Qed.

(** X8: [loadData] never looks at the status of a response: with every status
    code replaced by any other, it returns the same record and leaves the same
    console and requests.  A response with status 404 whose body can be read
    is parsed like any other, without an error note. *)
Theorem loadData_ignores_status
    (fetch : string -> Outcome DataLoader.Response)
    (Papa_parse : string -> DataLoader.ParseConfig -> Outcome DataLoader.ParseResult)
    (f : N -> N) (env : Env) :
  DataLoader.loadData (with_status f fetch) Papa_parse env =
  DataLoader.loadData fetch Papa_parse env.
Proof.
  apply loadData_ext. intros name. unfold readFile, with_status.
  destruct (fetch _) as [response|e|]; reflexivity.
Qed.

(** X9: [loadData] uses the parser only with [header] and [skipEmptyLines]
    set, and only the [data] of its result: whatever errors the parser reports
    beside the rows, and whatever it does under other options, the record, the
    console and the requests are the same.  Reported row errors are neither
    logged nor returned. *)
Theorem loadData_ignores_parse_errors
    (fetch : string -> Outcome DataLoader.Response)
    (Papa_parse : string -> DataLoader.ParseConfig -> Outcome DataLoader.ParseResult)
    (g : list JsError -> list JsError) (env : Env) :
  DataLoader.loadData fetch (with_errors g Papa_parse) env =
    DataLoader.loadData fetch Papa_parse env /\
  DataLoader.loadData fetch (only_loader_config Papa_parse) env =
    DataLoader.loadData fetch Papa_parse env.
Proof.
  split; apply loadData_ext; intros name;
    unfold readFile, DataLoader.parseCSV, with_errors, only_loader_config;
    destruct (fetch _) as [response|e|]; try reflexivity;
    destruct (DataLoader.text response) as [body|e|]; try reflexivity.
  destruct (Papa_parse body _) as [parsed|e|]; reflexivity.
Qed.

(** X10: [loadData] keeps no cache.  When nothing stays pending, a second
    call requests the four files again, whatever the first call fetched, and
    its record is built from what the server serves at the second call: each
    file then fetched, read and parsed is bound to those rows. *)
Theorem loadData_twice
    (fetch fetch' : string -> Outcome DataLoader.Response)
    (Papa_parse : string -> DataLoader.ParseConfig -> Outcome DataLoader.ParseResult)
    (env : Env) :
  all_settle fetch Papa_parse = true ->
  all_settle fetch' Papa_parse = true ->
  exists data1 data2 env1 env2,
    DataLoader.loadData fetch Papa_parse env = (Returns data1, env1) /\
    DataLoader.loadData fetch' Papa_parse env1 = (Returns data2, env2) /\
    requests env2 =
      requests env ++
        [ mkRequest "/Customers.csv" []; mkRequest "/Detail.csv" [];
          mkRequest "/Inventory.csv" []; mkRequest "/Pricelist.csv" [];
          mkRequest "/Customers.csv" []; mkRequest "/Detail.csv" [];
          mkRequest "/Inventory.csv" []; mkRequest "/Pricelist.csv" [] ] /\
    forall name response body parsed,
      name ∈ DataLoader.files ->
      fetch' ("/" +:+ name +:+ ".csv") = Returns response ->
      DataLoader.text response = Returns body ->
      Papa_parse body (DataLoader.mkConfig true true) = Returns parsed ->
      data2 !! toLowerCase name = Some (DataLoader.data parsed).
Proof.
  intros Hall Hall'. eexists _, _, _, _.
  split; [apply (loadData_settled fetch Papa_parse env Hall)|].
  split; [apply (loadData_settled fetch' Papa_parse _ Hall')|].
  split; [cbn [requests]; rewrite <- app_assoc; reflexivity|].
  intros name response body parsed Hin Hfetch Hbody Hparse.
  rewrite (loaded_lookup_file _ _ name Hin).
  unfold rows_of, readFile, DataLoader.parseCSV.
  rewrite Hfetch, Hbody, Hparse. reflexivity.
Qed.

Lemma loadData_twice_witness :
  exists data1 data2 env1 env2,
    DataLoader.loadData example_fetch example_parse empty_env = (Returns data1, env1) /\
    DataLoader.loadData serving_fetch example_parse env1 = (Returns data2, env2) /\
    length (requests env2) = 8%nat /\
    data2 !! "detail" = Some [JObject {["raw" := JString "/Detail.csv"]}].
Proof.
  destruct (loadData_twice example_fetch serving_fetch example_parse empty_env)
    as (data1 & data2 & env1 & env2 & Hfirst & Hsecond & Hrequests & Hrows);
    [reflexivity|reflexivity|].
  exists data1, data2, env1, env2.
  split; [exact Hfirst|]. split; [exact Hsecond|].
  split; [rewrite Hrequests; reflexivity|].
  apply (Hrows "Detail" (DataLoader.mkFetched 200 (Returns "/Detail.csv")) "/Detail.csv"
           (DataLoader.mkParsed [JObject {["raw" := JString "/Detail.csv"]}] []));
    [repeat constructor|reflexivity..].
Defined.

(** ** [handleSend] *)

Section ChatFurther.

Variable axios_get : string -> list (string * string) -> Outcome Api.AxiosResponse.
Variable order : Racer.

(** The environment once the timer of [handleSend] is set. *)
Local Abbreviation timed env := (mkEnv (console env) (requests env) (timers env ++ [7000%N])).

(** A send of a question that is not blank, with the bot's reply given by the
    race between [queryCSV] and the timeout promise. *)
Lemma handleSend_race (st : ChatScreen.State) (env : Env) :
  trim (ChatScreen.question st) <> "" ->
  exists reply,
    Promise_race order
      (fst (Api.queryCSV axios_get (ChatScreen.question st) (timed env)))
      (Returns (JString "Sorry, that request timed out.")) = Returns reply /\
    ChatScreen.handleSend axios_get order (st, env) =
      (Returns tt,
       (ChatScreen.mkState ""
          (ChatScreen.messages st ++
             [ChatScreen.mkMessage "user" (JString (ChatScreen.question st));
              ChatScreen.mkMessage "bot" reply])
          false,
        snd (Api.queryCSV axios_get (ChatScreen.question st) (timed env)))).
Proof.
  intros Hq. destruct st as [q msgs loading]; simpl in *.
  destruct (Promise_race_timer order (fst (Api.queryCSV axios_get q (timed env)))
              (JString "Sorry, that request timed out.")
              (queryCSV_never_throws axios_get q (timed env))) as [reply [Hrace _]].
  exists reply. split; [exact Hrace|].
  unfold ChatScreen.handleSend, bind at 1, gets.
  cbn [fst ChatScreen.question].
  rewrite (not_blank_guard q Hq).
  unfold bind, ChatScreen.setMessages, ChatScreen.setIsLoading, ChatScreen.setQuestion,
    ChatScreen.onEnv, setTimeout, modify, try_catch, ChatScreen.handleSend_try, bind,
    start, await, ChatScreen.onEnv, ChatScreen.setMessages, modify; simpl.
  destruct (Api.queryCSV axios_get q (timed env)) as [query env1]; simpl in *.
  rewrite Hrace. simpl. rewrite <- app_assoc. reflexivity.
Qed.

Lemma blank_or_not (q : string) :
  {Forall (fun c => isWhiteSpace c = true) (String.list_ascii_of_string q)} +
  {trim q <> ""}.
Proof.
  destruct (decide (trim q = "")) as [H|H]; [left|right; exact H].
  apply trim_empty_iff_blank. exact H.
Qed.

(** X11: [handleSend] always returns: it never throws and never stays
    pending, not even when the backend call never settles.  The history is
    only ever extended, and either nothing at all has changed or the send is
    over: the loading flag is off and the input is cleared. *)
Theorem handleSend_always_returns (st : ChatScreen.State) (env : Env) :
  exists st' env',
    ChatScreen.handleSend axios_get order (st, env) = (Returns tt, (st', env')) /\
    ChatScreen.messages st `prefix_of` ChatScreen.messages st' /\
    ((st' = st /\ env' = env) \/
     (ChatScreen.isLoading st' = false /\ ChatScreen.question st' = "")).
Proof.
  destruct (blank_or_not (ChatScreen.question st)) as [Hblank|Hq].
  - exists st, env. split; [|split; [reflexivity|left; split; reflexivity]].
    unfold ChatScreen.handleSend, bind, gets; simpl.
    rewrite (trim_blank _ Hblank). reflexivity.
  - destruct (handleSend_race st env Hq) as [reply [_ Hsend]].
    eexists _, _. split; [exact Hsend|]. simpl.
    split; [apply prefix_app_r; reflexivity|right; split; reflexivity].
Qed.

(** X12: when the question has a character that is not white space,
    [handleSend] sends it as typed: the request to [BASE_URL] and the user's
    message both carry the question untrimmed.  Exactly one request is sent and
    exactly one timer, of 7000 ms, is set; afterwards the history has gained
    the user's message and one bot message, the loading flag is off and the
    input is cleared. *)
Theorem handleSend_sends_question_as_typed (st : ChatScreen.State) (env : Env) :
  Exists (fun c => isWhiteSpace c = false)
         (String.list_ascii_of_string (ChatScreen.question st)) ->
  exists reply env',
    ChatScreen.handleSend axios_get order (st, env) =
      (Returns tt,
       (ChatScreen.mkState ""
          (ChatScreen.messages st ++
             [ChatScreen.mkMessage "user" (JString (ChatScreen.question st));
              ChatScreen.mkMessage "bot" reply])
          false,
        env')) /\
    requests env' =
      requests env ++ [mkRequest Api.BASE_URL [("question", ChatScreen.question st)]] /\
    timers env' = timers env ++ [7000%N].
Proof.
  intros Hsome.
  assert (trim (ChatScreen.question st) <> "") as Hq.
  { intros Hempty. apply trim_empty_iff_blank in Hempty.
    apply Exists_exists in Hsome as (c & Hin & Hc).
    rewrite Forall_forall in Hempty. specialize (Hempty c Hin). congruence. }
  destruct (handleSend_not_blank axios_get order st env Hq)
    as (reply & env' & Hsend & Htimers & Hrequests & _).
  exists reply, env'. auto.
Qed.

(** X13: what the bot's message says after a send of a question that is not
    blank.  It is "Sorry, that request timed out." when the backend call never
    settles or the timer settles first.  When the query settles first, it is
    the fallback sentence of [queryCSV] if the backend call was rejected, and
    otherwise what reading [answer] from the body gave: the answer text, or
    [undefined] for a body without that field. *)
Theorem handleSend_bot_message (st : ChatScreen.State) (env : Env) :
  trim (ChatScreen.question st) <> "" ->
  exists reply env',
    ChatScreen.handleSend axios_get order (st, env) =
      (Returns tt,
       (ChatScreen.mkState ""
          (ChatScreen.messages st ++
             [ChatScreen.mkMessage "user" (JString (ChatScreen.question st));
              ChatScreen.mkMessage "bot" reply])
          false,
        env')) /\
    match axios_get Api.BASE_URL [("question", ChatScreen.question st)], order with
    | Hangs, _ | _, SecondSettles => reply = JString "Sorry, that request timed out."
    | Throws _, FirstSettles =>
        reply = JString "Sorry, something went wrong while querying the data."
    | Returns response, FirstSettles =>
        match Api.data response with
        | JNull | JUndefined =>
            reply = JString "Sorry, something went wrong while querying the data."
        | JObject payload => reply = default JUndefined (payload !! "answer")
        | _ => reply = JUndefined
        end
    end.
Proof.
  intros Hq. destruct (handleSend_race st env Hq) as [reply [Hrace Hsend]].
  exists reply. eexists. split; [exact Hsend|].
  rewrite queryCSV_cases in Hrace.
  destruct (axios_get _ _) as [response|e|]; simpl in Hrace.
  - destruct (Api.data response); simpl in Hrace; destruct order; simpl in Hrace;
      congruence.
  - destruct order; simpl in Hrace; congruence.
  - destruct order; simpl in Hrace; congruence.
Qed.

(** X14: pressing Send a second time without typing sends nothing more: the
    first send cleared the input, so the second is stopped by the guard.
    Running [handleSend] twice in a row is the same as running it once. *)
Theorem handleSend_twice (st : ChatScreen.State) (env : Env) :
  (ChatScreen.handleSend axios_get order ;;; ChatScreen.handleSend axios_get order) (st, env) =
  ChatScreen.handleSend axios_get order (st, env).
Proof.
  unfold bind at 1.
  destruct (blank_or_not (ChatScreen.question st)) as [Hblank|Hq].
  - assert (ChatScreen.handleSend axios_get order (st, env) = (Returns tt, (st, env))) as H.
    { unfold ChatScreen.handleSend, bind, gets; simpl.
      rewrite (trim_blank _ Hblank). reflexivity. }
    rewrite H. exact H.
  - destruct (handleSend_race st env Hq) as [reply [_ Hsend]].
    rewrite Hsend. reflexivity.
Qed.

End ChatFurther.

Lemma handleSend_sends_question_as_typed_witness :
  exists reply env',
    ChatScreen.handleSend (constant_backend (JObject {["answer" := JString "Widget"]}))
      FirstSettles (ChatScreen.mkState " top item " [] false, empty_env) =
      (Returns tt,
       (ChatScreen.mkState ""
          [ChatScreen.mkMessage "user" (JString " top item ");
           ChatScreen.mkMessage "bot" reply]
          false,
        env')) /\
    requests env' = [mkRequest Api.BASE_URL [("question", " top item ")]] /\
    timers env' = [7000%N].
Proof.
  apply (handleSend_sends_question_as_typed
           (constant_backend (JObject {["answer" := JString "Widget"]})) FirstSettles
           (ChatScreen.mkState " top item " [] false) empty_env).
  simpl. right. left. reflexivity.
Defined.

Lemma handleSend_bot_message_witness :
  exists reply env',
    ChatScreen.handleSend silent_backend FirstSettles
      (ChatScreen.mkState "top item" [] false, empty_env) =
      (Returns tt,
       (ChatScreen.mkState ""
          [ChatScreen.mkMessage "user" (JString "top item");
           ChatScreen.mkMessage "bot" reply]
          false,
        env')) /\
    reply = JString "Sorry, that request timed out.".
Proof.
  apply (handleSend_bot_message silent_backend FirstSettles
           (ChatScreen.mkState "top item" [] false) empty_env).
  vm_compute. discriminate.
Defined.

(** ** Sessions and the view *)

Lemma handleSend_blank_noop_aux
    (axios_get : string -> list (string * string) -> Outcome Api.AxiosResponse)
    (order : Racer) (st : ChatScreen.State) (env : Env) :
  Forall (fun c => isWhiteSpace c = true)
         (String.list_ascii_of_string (ChatScreen.question st)) ->
  ChatScreen.handleSend axios_get order (st, env) = (Returns tt, (st, env)).
Proof.
  intros Hblank. unfold ChatScreen.handleSend, bind, gets; simpl.
  rewrite (trim_blank _ Hblank). reflexivity.
Qed.

Lemma session_cons (ev : Event) (events : list Event) (s : ChatScreen.State * Env) :
  session (ev :: events) s =
    match handle ev s with
    | (Returns _, s') => session events s'
    | (Throws e, s') => (Throws e, s')
    | (Hangs, s') => (Hangs, s')
    end.
Proof.
  unfold session. simpl.
  destruct (handle ev s) as [[[]|e|] s']; reflexivity.
Qed.

(** A session from any state that is not loading. *)
Lemma session_from (events : list Event) :
  forall (st : ChatScreen.State) (env : Env),
    ChatScreen.isLoading st = false ->
    exists turns q env',
      session events (st, env) =
        (Returns tt,
         (ChatScreen.mkState q (ChatScreen.messages st ++ flat_map exchange turns) false,
          env')) /\
      requests env' = requests env ++ map (fun turn => query_request (fst turn)) turns /\
      timers env' = timers env ++ replicate (length turns) 7000%N.
Proof.
  induction events as [|ev events IH]; intros st env Hidle.
  - exists [], (ChatScreen.question st), env. simpl. rewrite !app_nil_r.
    destruct st; simpl in *; subst. auto.
  - rewrite session_cons. destruct ev as [text|reply order]; simpl.
    + unfold ChatScreen.setQuestion, modify.
      destruct (IH (ChatScreen.mkState text (ChatScreen.messages st) (ChatScreen.isLoading st))
                   env Hidle) as (turns & q & env' & Hrun & Hreq & Htim).
      exists turns, q, env'. auto.
    + destruct (blank_or_not (ChatScreen.question st)) as [Hblank|Hq].
      * rewrite (handleSend_blank_noop_aux (fun _ _ => reply) order st env Hblank).
        exact (IH st env Hidle).
      * destruct (handleSend_not_blank (fun _ _ => reply) order st env Hq)
          as (answer & env1 & Hsend & Htim1 & Hreq1 & _).
        rewrite Hsend.
        destruct (IH (ChatScreen.mkState ""
                        (ChatScreen.messages st ++
                           [ChatScreen.mkMessage "user" (JString (ChatScreen.question st));
                            ChatScreen.mkMessage "bot" answer]) false)
                     env1 eq_refl) as (turns & q & env' & Hrun & Hreq & Htim).
        exists ((ChatScreen.question st, answer) :: turns), q, env'.
        split; [|split].
        -- rewrite Hrun. simpl. rewrite <- app_assoc. reflexivity.
        -- rewrite Hreq, Hreq1. simpl. rewrite <- app_assoc. reflexivity.
        -- rewrite Htim, Htim1. simpl. rewrite <- app_assoc. reflexivity.
Qed.

(** X15: after any sequence of typing and pressing Send, starting from the
    component's first render and whatever the backend did at each send, the
    loading flag is off and the history is a sequence of exchanges, each a user
    message followed by one bot message.  The requests sent are exactly one
    per exchange, in order, each carrying the text of the exchange's user
    message, and one timer of 7000 ms was set per exchange. *)
Theorem session_history_is_exchanges (events : list Event) (env : Env) :
  exists turns q env',
    session events (initialState, env) =
      (Returns tt, (ChatScreen.mkState q (flat_map exchange turns) false, env')) /\
    requests env' = requests env ++ map (fun turn => query_request (fst turn)) turns /\
    timers env' = timers env ++ replicate (length turns) 7000%N.
Proof. exact (session_from events initialState env eq_refl). Qed.


Lemma bubbles_settle (msgs : list ChatScreen.Message) :
  forall index, ChatView.bubbles index msgs <> Hangs.
Proof.
  induction msgs as [|msg msgs IH]; intros index; simpl; [discriminate|].
  unfold ChatView.bubble. destruct (ChatView.valid_child _); [|discriminate].
  specialize (IH (S index)). destruct (ChatView.bubbles (S index) msgs); congruence.
Qed.

Lemma bubbles_app (msgs new : list ChatScreen.Message) :
  forall index,
    ChatView.bubbles index (msgs ++ new) =
      match ChatView.bubbles index msgs with
      | Returns shown =>
          match ChatView.bubbles (index + length msgs) new with
          | Returns others => Returns (shown ++ others)
          | Throws e => Throws e
          | Hangs => Hangs
          end
      | Throws e => Throws e
      | Hangs => Hangs
      end.
Proof.
  induction msgs as [|msg msgs IH]; intros index; simpl.
  - rewrite Nat.add_0_r. destruct (ChatView.bubbles index new); reflexivity.
  - destruct (ChatView.bubble index msg) as [shown|e|]; try reflexivity.
    rewrite IH, Nat.add_succ_comm.
    destruct (ChatView.bubbles (S index) msgs) as [others|e|]; try reflexivity.
    destruct (ChatView.bubbles _ new); reflexivity.
Qed.

Section ViewProperties.

Variable axios_get : string -> list (string * string) -> Outcome Api.AxiosResponse.
Variable order : Racer.

(** X16: [handleSend] is its part before the [await] followed by its part
    after it; and when the handler of a question that is not blank waits for
    the reply, the view shows the earlier bubbles unchanged, the user's new
    bubble and the thinking indicator, the input is read-only and the Send
    button is disabled.  The user's bubble is always a valid child; the view
    throws only if a bubble of the earlier history does. *)
Theorem view_while_waiting (st : ChatScreen.State) (env : Env) :
  ChatScreen.handleSend axios_get order (st, env) =
    (let* raced := handleSend_begin axios_get order in handleSend_resume raced) (st, env) /\
  (trim (ChatScreen.question st) <> "" ->
   exists raced st_waiting env',
    handleSend_begin axios_get order (st, env) = (Returns (Some raced), (st_waiting, env')) /\
    ChatView.render st_waiting =
      match ChatView.bubbles 0 (ChatScreen.messages st) with
      | Returns earlier =>
          Returns
            (ChatView.View ChatView.container
               [ ChatView.ScrollView ChatView.chat
                   (earlier ++
                    [ ChatView.Text (Some (length (ChatScreen.messages st))) ChatView.user
                        (ChatView.Expr (JString (ChatScreen.question st)));
                      ChatView.Text None ChatView.thinking
                        (ChatView.Literal ChatView.thinking_text) ]);
                 ChatView.TextInput ChatView.input "Ask about your orders..."
                   (ChatScreen.question st) ChatView.call_setQuestion false;
                 ChatView.Button "Send" ChatView.call_handleSend true ])
      | Throws e => Throws e
      | Hangs => Hangs
      end).
Proof.
  destruct st as [q msgs loading].
  split; [|simpl; intros Hq].
  - unfold ChatScreen.handleSend, handleSend_begin, handleSend_resume,
      ChatScreen.handleSend_try, bind, gets, start, await, try_catch,
      ChatScreen.setMessages, ChatScreen.setIsLoading, ChatScreen.setQuestion,
      ChatScreen.onEnv, setTimeout, modify, ret; simpl.
    destruct (trim q =? "")%string; simpl; [reflexivity|].
    destruct (Api.queryCSV axios_get q _) as [query env1]; reflexivity.
  - unfold handleSend_begin, bind at 1, gets.
    cbn [fst ChatScreen.question]. rewrite (not_blank_guard q Hq).
    unfold bind, start, ret, ChatScreen.setMessages, ChatScreen.setIsLoading,
      ChatScreen.onEnv, setTimeout, modify; simpl.
    destruct (Api.queryCSV axios_get q _) as [query env1].
    eexists _, _, _. split; [reflexivity|].
    unfold ChatView.render. cbn [ChatScreen.messages ChatScreen.isLoading ChatScreen.question].
    rewrite bubbles_app.
    destruct (ChatView.bubbles 0 msgs) as [earlier|e|]; try reflexivity.
    simpl. rewrite <- app_assoc. reflexivity.
Qed.

(** X17: after a send of a question that is not blank, the view shows the
    earlier bubbles unchanged and under the same keys, then the question in a
    bubble with the user style and the reply in a bubble with the bot style,
    without the thinking indicator, with the input empty and editable and the
    Send button enabled, provided the reply is a valid child.  When it is
    not, the view throws: this is the case when the query settles first with
    a body whose [answer] is a plain object. *)
Theorem view_after_send (st : ChatScreen.State) (env : Env) :
  trim (ChatScreen.question st) <> "" ->
  exists reply st' env',
    ChatScreen.handleSend axios_get order (st, env) = (Returns tt, (st', env')) /\
    ChatView.render st' =
      match ChatView.bubbles 0 (ChatScreen.messages st) with
      | Returns earlier =>
          if ChatView.valid_child reply then
            Returns
              (ChatView.View ChatView.container
                 [ ChatView.ScrollView ChatView.chat
                     (earlier ++
                      [ ChatView.Text (Some (length (ChatScreen.messages st))) ChatView.user
                          (ChatView.Expr (JString (ChatScreen.question st)));
                        ChatView.Text (Some (S (length (ChatScreen.messages st))))
                          ChatView.bot (ChatView.Expr reply) ]);
                   ChatView.TextInput ChatView.input "Ask about your orders..." ""
                     ChatView.call_setQuestion true;
                   ChatView.Button "Send" ChatView.call_handleSend false ])
          else Throws ChatView.invalid_child
      | Throws e => Throws e
      | Hangs => Hangs
      end /\
    (forall response payload fields,
       order = FirstSettles ->
       axios_get Api.BASE_URL [("question", ChatScreen.question st)] = Returns response ->
       Api.data response = JObject payload ->
       payload !! "answer" = Some (JObject fields) ->
       exists e, ChatView.render st' = Throws e).
Proof.
  intros Hq. destruct (handleSend_race axios_get order st env Hq) as [reply [Hrace Hsend]].
  exists reply. eexists _, _. split; [exact Hsend|].
  assert (ChatView.render
              (ChatScreen.mkState ""
                 (ChatScreen.messages st ++
                    [ChatScreen.mkMessage "user" (JString (ChatScreen.question st));
                     ChatScreen.mkMessage "bot" reply]) false) =
            match ChatView.bubbles 0 (ChatScreen.messages st) with
            | Returns earlier =>
                if ChatView.valid_child reply then
                  Returns
                    (ChatView.View ChatView.container
                       [ ChatView.ScrollView ChatView.chat
                           (earlier ++
                            [ ChatView.Text (Some (length (ChatScreen.messages st)))
                                ChatView.user
                                (ChatView.Expr (JString (ChatScreen.question st)));
                              ChatView.Text (Some (S (length (ChatScreen.messages st))))
                                ChatView.bot (ChatView.Expr reply) ]);
                         ChatView.TextInput ChatView.input "Ask about your orders..." ""
                           ChatView.call_setQuestion true;
                         ChatView.Button "Send" ChatView.call_handleSend false ])
                else Throws ChatView.invalid_child
            | Throws e => Throws e
            | Hangs => Hangs
            end) as Hrender.
  { unfold ChatView.render.
    cbn [ChatScreen.messages ChatScreen.isLoading ChatScreen.question].
    rewrite bubbles_app.
    destruct (ChatView.bubbles 0 (ChatScreen.messages st)) as [earlier|e|]; try reflexivity.
    simpl. unfold ChatView.bubble at 1. cbn [ChatScreen.text ChatScreen.sender].
    destruct (ChatView.valid_child reply); [|reflexivity].
    simpl. rewrite app_nil_r. reflexivity. }
  split; [exact Hrender|].
  intros response payload fields -> Hget Hdata Hanswer.
  rewrite queryCSV_cases, Hget, Hdata in Hrace. simpl in Hrace.
  rewrite Hanswer in Hrace. simpl in Hrace. injection Hrace as <-.
  rewrite Hrender.
  pose proof (bubbles_settle (ChatScreen.messages st) 0) as Hsettle.
  destruct (ChatView.bubbles 0 (ChatScreen.messages st)) as [earlier|e|];
    [simpl; eauto|eauto|congruence].
Qed.

End ViewProperties.

Lemma view_while_waiting_witness :
  exists raced st_waiting env',
    handleSend_begin silent_backend FirstSettles
      (ChatScreen.mkState "top item" [ChatScreen.mkMessage "bot" (JString "Hello")] false,
       empty_env) = (Returns (Some raced), (st_waiting, env')) /\
    ChatView.render st_waiting =
      Returns
        (ChatView.View ChatView.container
           [ ChatView.ScrollView ChatView.chat
               [ ChatView.Text (Some 0%nat) ChatView.bot (ChatView.Expr (JString "Hello"));
                 ChatView.Text (Some 1%nat) ChatView.user (ChatView.Expr (JString "top item"));
                 ChatView.Text None ChatView.thinking
                   (ChatView.Literal ChatView.thinking_text) ];
             ChatView.TextInput ChatView.input "Ask about your orders..." "top item"
               ChatView.call_setQuestion false;
             ChatView.Button "Send" ChatView.call_handleSend true ]).
Proof.
  apply (view_while_waiting silent_backend FirstSettles
           (ChatScreen.mkState "top item" [ChatScreen.mkMessage "bot" (JString "Hello")] false)
           empty_env).
  vm_compute. discriminate.
Defined.

Lemma view_after_send_witness :
  (exists reply st' env',
     ChatScreen.handleSend silent_backend FirstSettles
       (ChatScreen.mkState "top item" [ChatScreen.mkMessage "bot" (JString "Hello")] false,
        empty_env) = (Returns tt, (st', env')) /\
     ChatView.render st' =
       if ChatView.valid_child reply then
         Returns
           (ChatView.View ChatView.container
              [ ChatView.ScrollView ChatView.chat
                  [ ChatView.Text (Some 0%nat) ChatView.bot (ChatView.Expr (JString "Hello"));
                    ChatView.Text (Some 1%nat) ChatView.user
                      (ChatView.Expr (JString "top item"));
                    ChatView.Text (Some 2%nat) ChatView.bot (ChatView.Expr reply) ];
                ChatView.TextInput ChatView.input "Ask about your orders..." ""
                  ChatView.call_setQuestion true;
                ChatView.Button "Send" ChatView.call_handleSend false ])
       else Throws ChatView.invalid_child) /\
  (exists st' env' e,
     ChatScreen.handleSend
       (constant_backend (JObject {["answer" := JObject {["name" := JString "Widget"]}]}))
       FirstSettles (ChatScreen.mkState "top item" [] false, empty_env) =
       (Returns tt, (st', env')) /\
     ChatView.render st' = Throws e).
Proof.
  split.
  - destruct (view_after_send silent_backend FirstSettles
                (ChatScreen.mkState "top item" [ChatScreen.mkMessage "bot" (JString "Hello")]
                                    false) empty_env)
      as (reply & st' & env' & Hsend & Hrender & _); [vm_compute; discriminate|].
    exists reply, st', env'. split; [exact Hsend|exact Hrender].
  - destruct (view_after_send
                (constant_backend
                   (JObject {["answer" := JObject {["name" := JString "Widget"]}]}))
                FirstSettles (ChatScreen.mkState "top item" [] false) empty_env)
      as (reply & st' & env' & Hsend & _ & Hcrash); [vm_compute; discriminate|].
    destruct (Hcrash (Api.mkResponse 200
                        (JObject {["answer" := JObject {["name" := JString "Widget"]}]}))
                     {["answer" := JObject {["name" := JString "Widget"]}]}
                     {["name" := JString "Widget"]}) as [e He]; try reflexivity.
    exists st', env', e. split; [exact Hsend|exact He].
Defined.

(** ** The timeout of a send *)


